(** * Message service: request handling and persistence of [app/server.py]

    A shallow embedding of the HTTP message service.  The handlers of
    [MessageHandler] are functions from a request and the contents of the
    [messages] table to an outcome and the new contents.  What the Python
    and SQLite libraries compute for the handlers (URL splitting, query
    parsing, JSON decoding, the clock) enters as data of the request and of
    the environment; what the handlers themselves decide is written out. *)

From Stdlib Require Import ZArith List String Ascii Bool Lia.
From Stdlib Require Import Sorting.Sorted Sorting.Permutation.
From Stdlib Require Import Floats.SpecFloat.
From stdpp Require Import gmap strings list sorting.

Set Warnings "-register-all".

Local Open Scope string_scope.
Local Open Scope list_scope.
Local Open Scope Z_scope.

(** ** Python values and exceptions *)

(** A Python [str] is a sequence of code points; a Rocq [string] stands for
    one whose code points are below U+0100, each [ascii] being the code
    point of that number. *)

(** The exception classes the handlers can meet. *)
Inductive pyexc : Type :=
| ValueError
| JSONDecodeError        (* subclass of ValueError *)
| UnicodeDecodeError     (* subclass of ValueError *)
| TypeError
| KeyError
| IndexError
| AttributeError
| OverflowError
| OperationalError.      (* sqlite3.OperationalError *)

(** [isinstance(e, ValueError)]. *)
Definition is_ValueError (e : pyexc) : bool :=
  match e with
  | ValueError | JSONDecodeError | UnicodeDecodeError => true
  | _ => false
  end.

(** [isinstance(e, json.JSONDecodeError)]. *)
Definition is_JSONDecodeError (e : pyexc) : bool :=
  match e with
  | JSONDecodeError => true
  | _ => false
  end.

(** A computation that returns a value or raises. *)
Inductive result (A : Type) : Type :=
| Ok (a : A)
| Raise (e : pyexc).
Arguments Ok {A} a.
Arguments Raise {A} e.

#[global] Instance result_ret : MRet result := fun A a => Ok a.

#[global] Instance result_bind : MBind result := fun A B k m =>
  match m with
  | Ok a => k a
  | Raise e => Raise e
  end.

(** [try: m  except <class>: h], the class given by its [isinstance] test. *)
Definition try_except {A : Type} (m : result A) (catches : pyexc -> bool)
    (h : result A) : result A :=
  match m with
  | Ok a => Ok a
  | Raise e => if catches e then h else Raise e
  end.

(** What [json.loads] builds.  A dict is kept as its items; a key is looked
    up from the front. *)
Inductive pyval : Type :=
| PNone
| PBool (b : bool)
| PInt (n : Z)
| PFloat (f : spec_float)
| PStr (s : string)
| PList (l : list pyval)
| PDict (d : list (string * pyval)).

(** [bool(v)]. *)
Definition truthy (v : pyval) : bool :=
  match v with
  | PNone => false
  | PBool b => b
  | PInt n => negb (n =? 0)
  | PFloat f => match f with S754_zero _ => false | _ => true end
  | PStr s => negb (String.eqb s "")
  | PList l => match l with [] => false | _ => true end
  | PDict d => match d with [] => false | _ => true end
  end.

(** [v == s] for a string [s]: only a [str] with the same code points. *)
Definition eq_str (s : string) (v : pyval) : bool :=
  match v with
  | PStr s' => String.eqb s s'
  | _ => false
  end.

Fixpoint dict_get (k : string) (d : list (string * pyval)) : option pyval :=
  match d with
  | [] => None
  | (k', v) :: d' => if String.eqb k k' then Some v else dict_get k d'
  end.

(** [s in t] for two strings: [s] occurs in [t]. *)
Fixpoint is_substring (s t : string) : bool :=
  String.prefix s t ||
  match t with
  | EmptyString => false
  | String _ t' => is_substring s t'
  end.

(** [k in data] for a string [k]. *)
Definition py_contains (k : string) (data : pyval) : result bool :=
  match data with
  | PDict d => Ok (match dict_get k d with Some _ => true | None => false end)
  | PList l => Ok (existsb (eq_str k) l)
  | PStr t => Ok (is_substring k t)
  | PNone | PBool _ | PInt _ | PFloat _ => Raise TypeError
  end.

(** [data[k]] for a string [k]. *)
Definition py_getitem (k : string) (data : pyval) : result pyval :=
  match data with
  | PDict d => match dict_get k d with Some v => Ok v | None => Raise KeyError end
  | _ => Raise TypeError
  end.

(** Code points for which [str.isspace] holds, below U+0100. *)
Definition is_space (c : ascii) : bool :=
  let n := N_of_ascii c in
  ((9 <=? n) && (n <=? 13) || (28 <=? n) && (n <=? 32) ||
   (n =? 133) || (n =? 160))%N.

Fixpoint lstrip (s : string) : string :=
  match s with
  | EmptyString => EmptyString
  | String c s' => if is_space c then lstrip s' else s
  end.

Fixpoint rstrip (s : string) : string :=
  match s with
  | EmptyString => EmptyString
  | String c s' =>
      match rstrip s' with
      | EmptyString => if is_space c then EmptyString else String c EmptyString
      | r => String c r
      end
  end.

(** [s.strip()]. *)
Definition strip (s : string) : string := rstrip (lstrip s).

(** [content.strip()] on whatever [content] is. *)
Definition py_strip (v : pyval) : result string :=
  match v with
  | PStr s => Ok (strip s)
  | _ => Raise AttributeError
  end.

Definition is_digit (c : ascii) : bool :=
  let n := N_of_ascii c in ((48 <=? n) && (n <=? 57))%N.

Definition digit_value (c : ascii) : Z := Z.of_N (N_of_ascii c) - 48.

(** Decimal digits, single underscores allowed between two digits.
    [after_digit] tells whether the previous character was a digit. *)
Fixpoint int_digits (acc : Z) (after_digit : bool) (s : string) : option Z :=
  match s with
  | EmptyString => if after_digit then Some acc else None
  | String c s' =>
      if is_digit c then int_digits (10 * acc + digit_value c) true s'
      else if Ascii.eqb c "_" && after_digit then int_digits acc false s'
      else None
  end.

(** [int(s)] for a string: surrounding white space, an optional sign, digits.
    The interpreter's configurable bound on the number of digits is not
    part of the model. *)
Definition py_int (s : string) : result Z :=
  let parsed :=
    match strip s with
    | String "+" r => int_digits 0 false r
    | String "-" r => Z.opp <$> int_digits 0 false r
    | r => int_digits 0 false r
    end in
  match parsed with
  | Some n => Ok n
  | None => Raise ValueError
  end.


(** ** The [messages] table *)

(** A row of [messages].  [msg_timestamp] is the instant that the text
    written by [CURRENT_TIMESTAMP] denotes, in seconds; that text has a fixed
    width, so comparing the texts compares the instants. *)
Record message : Type := Message {
  msg_id : Z;
  msg_content : string;
  msg_type : string;
  msg_timestamp : Z
}.

#[global] Instance message_eq_dec : EqDecision message.
Proof. solve_decision. Defined.

(** The table as SQLite walks it: rows in ascending [id], the key of the
    table's B-tree ([id INTEGER PRIMARY KEY] is the rowid). *)
Abbreviation table := (list message).

(** What the store reads from outside a request: the clock, and the rowid
    SQLite's random search settles on when the largest rowid is taken
    ([None]: it found no free one). *)
Record env : Type := Env {
  CURRENT_TIMESTAMP : Z;
  random_rowid : option Z
}.

Definition MAX_ROWID : Z := 9223372036854775807.

(** Binding a Python [int] to a statement parameter: it must fit 64 bits. *)
Definition bind_int (n : Z) : result Z :=
  if (- MAX_ROWID - 1 <=? n) && (n <=? MAX_ROWID) then Ok n
  else Raise OverflowError.

(** Binding [content] and [message_type] to the [INSERT].  The checks before
    it let only strings through (lemma [handle_create_message_cases]). *)
Definition bind_text (v : pyval) : result string :=
  match v with
  | PStr s => Ok s
  | _ => Raise TypeError
  end.

Definition has_id (i : Z) (m : message) : bool := msg_id m =? i.

(** The rowid of a row inserted without one: 1 in an empty table, one more
    than the largest, and a random free rowid when the largest is
    [MAX_ROWID]. *)
Definition new_rowid (e : env) (t : table) : result Z :=
  match last t with
  | None => Ok 1
  | Some m =>
      if msg_id m <? MAX_ROWID then Ok (msg_id m + 1)
      else
        match random_rowid e with
        | Some r =>
            if (1 <=? r) && (r <=? 2 ^ 62) && negb (existsb (has_id r) t)
            then Ok r
            else Raise OperationalError
        | None => Raise OperationalError
        end
  end.

(** Putting a row at its place in the B-tree. *)
Fixpoint btree_insert (m : message) (t : table) : table :=
  match t with
  | [] => [m]
  | x :: t' =>
      if msg_id m <? msg_id x then m :: t else x :: btree_insert m t'
  end.

(** [INSERT INTO messages (content, type) VALUES (?, ?)]: the new table and
    [lastrowid]. *)
Definition sql_insert (e : env) (content type : string) (t : table)
    : result (Z * table) :=
  i ← new_rowid e t;
  Ok (i, btree_insert (Message i content type (CURRENT_TIMESTAMP e)) t).

(** One step of [ORDER BY timestamp DESC]: the sorter keys a row by its
    timestamp and then by its arrival, so a row goes behind every row
    already there whose timestamp is not earlier. *)
Fixpoint sorter_insert (m : message) (sorted : list message) : list message :=
  match sorted with
  | [] => [m]
  | x :: s' =>
      if msg_timestamp x <? msg_timestamp m then m :: sorted
      else x :: sorter_insert m s'
  end.

Definition order_by_timestamp_desc (t : table) : list message :=
  fold_left (fun sorted m => sorter_insert m sorted) t [].

(** [SELECT id, content, type, timestamp FROM messages
     ORDER BY timestamp DESC LIMIT ?]: the table is walked in rowid order,
    each row goes through the sorter, and the first [limit] rows of the
    sorter are the result; a negative limit is no limit. *)
Definition sql_select_recent (limit : Z) (t : table) : list message :=
  if limit <? 0 then order_by_timestamp_desc t
  else take (Z.to_nat limit) (order_by_timestamp_desc t).

(** [SELECT ... FROM messages WHERE id = ?] followed by [fetchone()]. *)
Definition sql_select_by_id (i : Z) (t : table) : option message :=
  find (has_id i) t.

(** [DELETE FROM messages WHERE id = ?]. *)
Definition sql_delete_by_id (i : Z) (t : table) : table :=
  filter (fun m => msg_id m ≠ i) t.

(** [SELECT COUNT( * ) as count FROM messages]. *)
Definition sql_count (t : table) : Z := Z.of_nat (length t).

(** ** Handlers: state and exceptions *)

(** A handler runs against the table and returns or raises; the table it
    leaves is kept in both cases. *)
Definition handler (A : Type) : Type := table -> result A * table.

#[global] Instance handler_ret : MRet handler := fun A a t => (Ok a, t).

#[global] Instance handler_bind : MBind handler := fun A B k m t =>
  match m t with
  | (Ok a, t') => k a t'
  | (Raise e, t') => (Raise e, t')
  end.

(** A computation that does not touch the table. *)
Definition pure {A : Type} (r : result A) : handler A := fun t => (r, t).

(** A read of the table. *)
Definition query {A : Type} (f : table -> A) : handler A := fun t => (Ok (f t), t).

(** A committed write. *)
Definition execute (f : table -> table) : handler unit := fun t => (Ok tt, f t).

(** The [except] clauses of a [try]: the first whose class matches runs. *)
Definition try_handler {A : Type} (m : handler A)
    (clauses : list ((pyexc -> bool) * (pyexc -> handler A))) : handler A :=
  fun t =>
    match m t with
    | (Ok a, t') => (Ok a, t')
    | (Raise e, t') =>
        match find (fun c => fst c e) clauses with
        | Some c => snd c e t'
        | None => (Raise e, t')
        end
    end.

(** ** Responses *)

(** The [message] argument of [send_error_response]: a literal, or the text
    of an exception after [Internal server error: ]. *)
Inductive error_message : Type :=
| Text (s : string)
| InternalServerError (e : pyexc).

(** The [data] argument of [send_json_response]. *)
Inductive payload : Type :=
| MessagesEnvelope (messages : list message)   (* {"messages": [...]} *)
| MessageObject (m : message)                  (* row_to_dict(row) *)
| DeletedEnvelope (deleted : Z)                (* {"deleted": id} *)
| DeletedCountEnvelope (deleted_count : Z)     (* {"deleted_count": n} *)
| ErrorEnvelope (error : error_message).       (* {"error": message} *)

Inductive response : Type :=
| Json (status : Z) (data : payload)      (* send_json_response *)
| Preflight                               (* do_OPTIONS: 200, no body *)
| StaticFile (head_only : bool) (path : string)
                                          (* SimpleHTTPRequestHandler *)
| UnsupportedMethod (command : string).   (* send_error(501, ...) *)

Definition send_json_response (data : payload) (status : Z) : response :=
  Json status data.

Definition send_error_response (msg : error_message) (status : Z) : response :=
  send_json_response (ErrorEnvelope msg) status.

(** ** Requests *)

(** What reading and decoding the body gives:
    [json.loads(self.rfile.read(content_length).decode("utf-8"))]. *)
Inductive body : Type :=
| NotUtf8                 (* decode raises UnicodeDecodeError *)
| NotJson                 (* json.loads raises JSONDecodeError *)
| Loaded (data : pyval).

Definition json_loads (b : body) : result pyval :=
  match b with
  | NotUtf8 => Raise UnicodeDecodeError
  | NotJson => Raise JSONDecodeError
  | Loaded data => Ok data
  end.

(** A request as the handlers see it: the method, the path and the parsed
    query of [urlparse(self.path)], the [Content-Length] header and the
    body. *)
Record request : Type := Request {
  command : string;
  path : string;                              (* parsed_path.path *)
  query_params : gmap string (list string);   (* parse_qs(parsed_path.query) *)
  content_length : option string;             (* headers.get("Content-Length") *)
  rfile : body
}.

(** ** The handlers of [MessageHandler] *)

(** A set in the source.  Only the error text that names its members depends
    on an order; the order of the source is taken for it. *)
Definition VALID_TYPES : list string := ["insight"; "decision"; "observation"].

(** [message_type in VALID_TYPES]: hashing a list or a dict raises. *)
Definition in_VALID_TYPES (message_type : pyval) : result bool :=
  match message_type with
  | PList _ | PDict _ => Raise TypeError
  | _ => Ok (existsb (fun s => eq_str s message_type) VALID_TYPES)
  end.

(** [query_params["limit"][0]]. *)
Definition first_value (values : list string) : result string :=
  match values with
  | v :: _ => Ok v
  | [] => Raise IndexError
  end.

(** The limit [handle_get_messages] passes to the query. *)
Definition effective_limit (q : gmap string (list string)) : result Z :=
  match q !! "limit" with
  | None => Ok 200
  | Some values =>
      try_except
        (v ← first_value values;
         limit ← py_int v;
         Ok (if limit <? 1 then 200 else limit))
        is_ValueError
        (Ok 200)
  end.

Definition handle_get_messages (q : gmap string (list string)) : handler response :=
  limit ← pure (effective_limit q);
  n ← pure (bind_int limit);
  messages ← query (sql_select_recent n);
  mret (send_json_response (MessagesEnvelope messages) 200).

(** [dict(row)] of [fetchone()]. *)
Definition row_to_dict (row : option message) : result message :=
  match row with
  | Some m => Ok m
  | None => Raise TypeError
  end.

(** [not content or not content.strip()]. *)
Definition content_is_empty (content : pyval) : result bool :=
  if negb (truthy content) then Ok true
  else s ← py_strip content; Ok (negb (truthy (PStr s))).

(** The [INSERT] and its commit; [lastrowid] is returned. *)
Definition insert_message (e : env) (content type : string) : handler Z :=
  fun t =>
    match sql_insert e content type t with
    | Ok (i, t') => (Ok i, t')
    | Raise ex => (Raise ex, t)
    end.

Definition handle_create_message (e : env) (rq : request) : handler response :=
  try_handler
    (len ← pure (match content_length rq with
                 | Some s => py_int s
                 | None => Ok 0
                 end);
     if len =? 0
     then mret (send_error_response (Text "Request body is required") 400)
     else
     data ← pure (json_loads (rfile rq));
     has_content ← pure (py_contains "content" data);
     if negb has_content
     then mret (send_error_response (Text "'content' field is required") 400)
     else
     has_type ← pure (py_contains "type" data);
     if negb has_type
     then mret (send_error_response (Text "'type' field is required") 400)
     else
     message_type ← pure (py_getitem "type" data);
     valid ← pure (in_VALID_TYPES message_type);
     if negb valid
     then mret (send_error_response
                  (Text ("'type' must be one of: " +:+ String.concat ", " VALID_TYPES))
                  400)
     else
     content ← pure (py_getitem "content" data);
     blank ← pure (content_is_empty content);
     if (blank : bool)
     then mret (send_error_response (Text "'content' cannot be empty") 400)
     else
     c ← pure (bind_text content);
     ty ← pure (bind_text message_type);
     message_id ← insert_message e c ty;
     row ← query (sql_select_by_id message_id);
     created ← pure (row_to_dict row);
     mret (send_json_response (MessageObject created) 201))
    [ (is_JSONDecodeError,
       fun _ => mret (send_error_response (Text "Invalid JSON in request body") 400));
      (fun _ => true,
       fun ex => mret (send_error_response (InternalServerError ex) 500)) ].

Definition handle_delete_message (message_id : Z) : handler response :=
  i ← pure (bind_int message_id);
  found ← query (sql_select_by_id i);
  match found with
  | None => mret (send_error_response (Text "Message not found") 404)
  | Some _ =>
      _ ← execute (sql_delete_by_id i);
      mret (send_json_response (DeletedEnvelope message_id) 200)
  end.

Definition handle_clear_messages : handler response :=
  count ← query sql_count;
  _ ← execute (fun _ => []);
  mret (send_json_response (DeletedCountEnvelope count) 200).

(** ** Routing *)

(** [s] without the prefix [p], when it has it. *)
Fixpoint after_prefix (p s : string) : option string :=
  match p, s with
  | EmptyString, _ => Some s
  | String a p', String b s' => if Ascii.eqb a b then after_prefix p' s' else None
  | String _ _, EmptyString => None
  end.

(** The longest run of digits at the front, and what follows it. *)
Fixpoint span_digits (s : string) : string * string :=
  match s with
  | EmptyString => (EmptyString, EmptyString)
  | String c s' =>
      if is_digit c
      then let '(d, r) := span_digits s' in (String c d, r)
      else (EmptyString, s)
  end.

Definition newline : string := String (ascii_of_N 10) EmptyString.

(** [re.match(r"^/messages/(\d+)$", path)], giving [group(1)].  [$] also
    matches before a final newline. *)
Definition match_message_path (p : string) : option string :=
  match after_prefix "/messages/" p with
  | None => None
  | Some rest =>
      let '(digits, tail) := span_digits rest in
      if negb (String.eqb digits "") &&
         (String.eqb tail "" || String.eqb tail newline)
      then Some digits
      else None
  end.

Definition not_found : response := send_error_response (Text "Not found") 404.

Definition do_OPTIONS : handler response := mret Preflight.

Definition do_GET (rq : request) : handler response :=
  if String.eqb (path rq) "/messages" then handle_get_messages (query_params rq)
  else if String.prefix "/static/" (path rq) || String.eqb (path rq) "/"
  then mret (StaticFile false
               (if String.eqb (path rq) "/" then "/index.html" else path rq))
  else mret not_found.

Definition do_POST (e : env) (rq : request) : handler response :=
  if String.eqb (path rq) "/messages" then handle_create_message e rq
  else mret not_found.

Definition do_DELETE (rq : request) : handler response :=
  match match_message_path (path rq) with
  | Some digits =>
      message_id ← pure (py_int digits);
      handle_delete_message message_id
  | None =>
      if String.eqb (path rq) "/messages" then handle_clear_messages
      else mret not_found
  end.

(** [BaseHTTPRequestHandler.handle_one_request]: the method [do_<command>]
    of the class runs; [do_HEAD] is the inherited one, and a command with
    no such method is answered 501. *)
Definition handle_one_request (e : env) (rq : request) : handler response :=
  if String.eqb (command rq) "GET" then do_GET rq
  else if String.eqb (command rq) "POST" then do_POST e rq
  else if String.eqb (command rq) "DELETE" then do_DELETE rq
  else if String.eqb (command rq) "OPTIONS" then do_OPTIONS
  else if String.eqb (command rq) "HEAD" then mret (StaticFile true (path rq))
  else mret (UnsupportedMethod (command rq)).
(** ** Tables and listings: the properties stated about them *)

(** The table is in B-tree order and its ids are rowids. *)
Definition table_ok (t : table) : Prop :=
  StronglySorted (fun a b => msg_id a < msg_id b) t ∧
  Forall (fun m => - MAX_ROWID - 1 <= msg_id m <= MAX_ROWID) t.

(** The largest rowid is not yet taken. *)
Definition has_room (t : table) : Prop :=
  ∀ x, last t = Some x → msg_id x < MAX_ROWID.

(** The order of the specification, in its words: [a] may stand before [b]
    when it has the later timestamp, or the same timestamp and the higher
    id. *)
Definition newest_first_id_desc (a b : message) : Prop :=
  msg_timestamp b < msg_timestamp a ∨
  (msg_timestamp a = msg_timestamp b ∧ msg_id b < msg_id a).

(** The order of the query: [a] may stand before [b] when it has the later
    timestamp, or the same timestamp and the lower id. *)
Definition newest_first_id_asc (a b : message) : Prop :=
  msg_timestamp b < msg_timestamp a ∨
  (msg_timestamp a = msg_timestamp b ∧ msg_id a < msg_id b).


(** ** Create requests *)

(** The request announces a body: [Content-Length] is an integer other
    than zero. *)
Definition has_body (rq : request) : Prop :=
  ∃ s n, content_length rq = Some s ∧ py_int s = Ok n ∧ n ≠ 0.

(** The body is a JSON object whose [content] is the string [c], not empty
    once trimmed, and whose [type] is [ty], one of the three. *)
Definition valid_create (rq : request) (c ty : string) : Prop :=
  has_body rq ∧
  ∃ d, rfile rq = Loaded (PDict d) ∧
       dict_get "content" d = Some (PStr c) ∧ strip c ≠ "" ∧
       dict_get "type" d = Some (PStr ty) ∧ ty ∈ VALID_TYPES.


(** ** Sample data *)

Definition sample_env : env := Env 100 None.

(** Two rows written within the same second. *)
Definition same_second : table :=
  [Message 1 "first" "insight" 100; Message 2 "second" "decision" 100].

Definition limit_query (v : string) : gmap string (list string) :=
  {["limit" := [v]]}.

Definition post_message (c ty : string) : request :=
  Request "POST" "/messages" ∅ (Some "64")
    (Loaded (PDict [("content", PStr c); ("type", PStr ty)])).

Definition delete_request (p : string) : request :=
  Request "DELETE" p ∅ None NotJson.

Definition list_request (q : gmap string (list string)) : request :=
  Request "GET" "/messages" q None NotJson.

(** ** The server loop *)

(** Requests are handled one after the other, each on the table the
    previous one left. *)
Fixpoint serve (reqs : list (env * request)) (t : table)
    : list (result response) * table :=
  match reqs with
  | [] => ([], t)
  | (e, rq) :: reqs' =>
      let '(r, t') := handle_one_request e rq t in
      let '(rs, t'') := serve reqs' t' in
      (r :: rs, t'')
  end.

(** The id a response reports as created. *)
Definition created_id (r : result response) : option Z :=
  match r with
  | Ok (Json _ (MessageObject m)) => Some (msg_id m)
  | _ => None
  end.

(** The ids assigned in a run, in the order of assignment. *)
Definition assigned_ids (rs : list (result response)) : list Z :=
  omap created_id rs.

(** ** Routes *)


(** ** Recency *)


(** [m] is the most recent message: it is stored, and no stored message is
    later by its timestamp or by its id. *)
Definition most_recent (m : message) (t : table) : Prop :=
  m ∈ t ∧ ∀ x, x ∈ t → msg_timestamp x <= msg_timestamp m ∧ msg_id x <= msg_id m.


(** ** Properties of stored rows and of request values *)


(** The row could have been written by a create request: its type is one
    of the three and its content is not blank. *)
Definition row_valid (m : message) : Prop :=
  msg_type m ∈ VALID_TYPES ∧ strip (msg_content m) ≠ "".


(** The value is a JSON number, [true], [false] or [null]. *)
Definition is_scalar (v : pyval) : bool :=
  match v with
  | PNone | PBool _ | PInt _ | PFloat _ => true
  | _ => false
  end.

(** * Theorems *)

(** ** The library models on sample inputs *)

Example py_int_plain : py_int "42" = Ok 42.
Proof. reflexivity. Qed.

Example py_int_spaces_sign : py_int "  -7 " = Ok (-7).
Proof. reflexivity. Qed.

Example py_int_underscore : py_int "1_000" = Ok 1000.
Proof. reflexivity. Qed.

Example py_int_trailing_text : py_int "12abc" = Raise ValueError.
Proof. reflexivity. Qed.

Example py_int_empty : py_int "" = Raise ValueError.
Proof. reflexivity. Qed.

Example py_int_double_underscore : py_int "1__0" = Raise ValueError.
Proof. reflexivity. Qed.

Example strip_both_ends : strip "   a b  " = "a b".
Proof. reflexivity. Qed.

Example match_message_path_digits : match_message_path "/messages/12" = Some "12".
Proof. reflexivity. Qed.

Example match_message_path_mixed : match_message_path "/messages/12a" = None.
Proof. reflexivity. Qed.

Example match_message_path_bare : match_message_path "/messages/" = None.
Proof. reflexivity. Qed.

Example blank_content_rejected :
  handle_create_message sample_env (post_message "   " "decision") []
  = (Ok (Json 400 (ErrorEnvelope (Text "'content' cannot be empty"))), []).
Proof. reflexivity. Qed.

Example unknown_type_rejected :
  handle_create_message sample_env (post_message "x" "idea") []
  = (Ok (Json 400 (ErrorEnvelope
       (Text "'type' must be one of: insight, decision, observation"))), []).
Proof. reflexivity. Qed.

Example delete_on_empty_table :
  handle_one_request sample_env (delete_request "/messages/999999") []
  = (Ok (Json 404 (ErrorEnvelope (Text "Message not found"))), []).
Proof. reflexivity. Qed.

Section Sorter.

Implicit Types (m x : message) (s t : list message).

Lemma sorter_insert_split m s :
  ∃ s1 s2, sorter_insert m s = s1 ++ m :: s2 ∧ s = s1 ++ s2 ∧
    Forall (fun x => msg_timestamp m <= msg_timestamp x) s1 ∧
    match s2 with
    | [] => True
    | x :: _ => msg_timestamp x < msg_timestamp m
    end.
Proof.
  induction s as [|x s IH]; simpl.
  - by exists [], [].
  - destruct (Z.ltb_spec (msg_timestamp x) (msg_timestamp m)) as [Hlt|Hge].
    + by exists [], (x :: s).
    + destruct IH as (s1 & s2 & -> & -> & Hs1 & Hs2).
      exists (x :: s1), s2. repeat split; auto.
Qed.

Lemma sorter_insert_perm m s : sorter_insert m s ≡ₚ m :: s.
Proof.
  destruct (sorter_insert_split m s) as (s1 & s2 & -> & -> & _).
  by rewrite Permutation_middle.
Qed.

Lemma fold_sorter_perm t acc :
  fold_left (fun sorted m => sorter_insert m sorted) t acc ≡ₚ acc ++ t.
Proof.
  revert acc. induction t as [|m t IH]; intros acc; simpl.
  - by rewrite app_nil_r.
  - rewrite IH, sorter_insert_perm. simpl. apply Permutation_middle.
Qed.

Lemma order_by_timestamp_desc_perm t : order_by_timestamp_desc t ≡ₚ t.
Proof. apply (fold_sorter_perm t []). Qed.


(** A row whose id is above all those in the sorter keeps it in order. *)
Lemma sorter_insert_sorted m s :
  StronglySorted newest_first_id_asc s →
  Forall (fun x => msg_id x < msg_id m) s →
  StronglySorted newest_first_id_asc (sorter_insert m s).
Proof.
  intros Hs Hid.
  destruct (sorter_insert_split m s) as (s1 & s2 & -> & -> & Hs1 & Hs2).
  apply StronglySorted_app in Hs as (H12 & Hs1' & Hs2').
  apply Forall_app in Hid as [Hid1 Hid2].
  apply StronglySorted_app_2; [|done|].
  - intros a b Ha Hb. apply elem_of_cons in Hb as [->|Hb]; [|by apply H12].
    rewrite Forall_forall in Hs1, Hid1.
    specialize (Hs1 _ Ha). specialize (Hid1 _ Ha).
    unfold newest_first_id_asc. lia.
  - constructor; [done|].
    destruct s2 as [|x s2]; [constructor|].
    apply StronglySorted_cons in Hs2' as [Hx _].
    constructor.
    + left. lia.
    + eapply Forall_impl; [exact Hx|]. unfold newest_first_id_asc.
      intros b Hb. left. lia.
Qed.

Lemma fold_sorter_sorted t acc :
  StronglySorted newest_first_id_asc acc →
  StronglySorted (fun a b => msg_id a < msg_id b) t →
  (∀ a b, a ∈ acc → b ∈ t → msg_id a < msg_id b) →
  StronglySorted newest_first_id_asc
    (fold_left (fun sorted m => sorter_insert m sorted) t acc).
Proof.
  revert acc. induction t as [|m t IH]; intros acc Hacc Ht Hlt; simpl; [done|].
  apply StronglySorted_cons in Ht as [Hm Ht].
  apply IH; [|done|].
  - apply sorter_insert_sorted; [done|].
    apply Forall_forall. intros a Ha. apply Hlt; [done|left].
  - intros a b Ha Hb.
    rewrite sorter_insert_perm in Ha.
    apply elem_of_cons in Ha as [->|Ha].
    + rewrite Forall_forall in Hm. by apply Hm.
    + apply Hlt; [done|by right].
Qed.

Lemma order_by_timestamp_desc_sorted t :
  StronglySorted (fun a b => msg_id a < msg_id b) t →
  StronglySorted newest_first_id_asc (order_by_timestamp_desc t).
Proof.
  intros Ht. apply fold_sorter_sorted; [constructor|done|].
  intros a b Ha. by apply elem_of_nil in Ha.
Qed.

Lemma sql_select_recent_prefix limit t :
  ∃ rest, order_by_timestamp_desc t = sql_select_recent limit t ++ rest.
Proof.
  unfold sql_select_recent. destruct (limit <? 0).
  - exists []. by rewrite app_nil_r.
  - exists (drop (Z.to_nat limit) (order_by_timestamp_desc t)).
    by rewrite take_drop.
Qed.

Lemma sql_select_recent_sorted limit t :
  StronglySorted (fun a b => msg_id a < msg_id b) t →
  StronglySorted newest_first_id_asc (sql_select_recent limit t).
Proof.
  intros Ht. apply order_by_timestamp_desc_sorted in Ht.
  destruct (sql_select_recent_prefix limit t) as [rest Hrest].
  rewrite Hrest in Ht. by apply StronglySorted_app_1_l in Ht.
Qed.

Lemma sql_select_recent_elem limit t m :
  m ∈ sql_select_recent limit t → m ∈ t.
Proof.
  intros Hm. rewrite <- order_by_timestamp_desc_perm.
  destruct (sql_select_recent_prefix limit t) as [rest ->].
  apply elem_of_app. by left.
Qed.

End Sorter.

Section Store.

Implicit Types (m x : message) (t : table) (i : Z).

Lemma table_ok_nil : table_ok [].
Proof. split; constructor. Qed.

Lemma ascending_last t x :
  StronglySorted (fun a b => msg_id a < msg_id b) t →
  last t = Some x →
  ∃ t0, t = t0 ++ [x] ∧ Forall (fun y => msg_id y < msg_id x) t0.
Proof.
  intros Ht Hlast. apply last_Some in Hlast as [t0 ->].
  exists t0. split; [done|].
  apply StronglySorted_app in Ht as (H & _ & _).
  apply Forall_forall. intros y Hy. apply H; [done|left].
Qed.

Lemma new_rowid_fresh e t i :
  table_ok t → new_rowid e t = Ok i →
  Forall (fun x => msg_id x ≠ i) t ∧ - MAX_ROWID - 1 <= i <= MAX_ROWID.
Proof.
  intros [Hs Hr] Hnew. unfold new_rowid in Hnew.
  destruct (last t) as [x|] eqn:Hlast.
  - destruct (Z.ltb_spec (msg_id x) MAX_ROWID) as [Hlt|Hge].
    + inversion Hnew; subst i.
      destruct (ascending_last t x Hs Hlast) as (t0 & -> & Ht0).
      apply Forall_app in Hr as [_ Hx]. rewrite Forall_singleton in Hx.
      split; [|lia].
      apply Forall_app. split; [|apply Forall_singleton; lia].
      eapply Forall_impl; [exact Ht0|]. simpl. intros; lia.
    + destruct (random_rowid e) as [r|]; [|done].
      destruct ((1 <=? r) && (r <=? 2 ^ 62) && negb (existsb (has_id r) t))
        eqn:Hr'; [|done].
      inversion Hnew; subst i.
      apply andb_prop in Hr' as [Hb Hfree]. apply andb_prop in Hb as [H1 H2].
      apply Z.leb_le in H1, H2. apply negb_true_iff in Hfree.
      split; [|unfold MAX_ROWID; lia].
      apply Forall_forall. intros y Hy Heq.
      assert (existsb (has_id r) t = true) as Hex; [|congruence].
      apply existsb_exists. exists y. split; [by apply list_elem_of_In|].
      unfold has_id. by apply Z.eqb_eq.
  - inversion Hnew; subst i. apply last_None in Hlast as ->.
    split; [constructor|unfold MAX_ROWID; lia].
Qed.

Lemma new_rowid_has_room e t :
  table_ok t → has_room t →
  ∃ i, new_rowid e t = Ok i ∧ Forall (fun x => msg_id x < i) t.
Proof.
  intros [Hs _] Hroom. unfold new_rowid.
  destruct (last t) as [x|] eqn:Hlast.
  - specialize (Hroom x Hlast).
    destruct (Z.ltb_spec (msg_id x) MAX_ROWID) as [_|?]; [|lia].
    exists (msg_id x + 1). split; [done|].
    destruct (ascending_last t x Hs Hlast) as (t0 & -> & Ht0).
    apply Forall_app. split; [|apply Forall_singleton; lia].
    eapply Forall_impl; [exact Ht0|]. simpl. intros; lia.
  - apply last_None in Hlast as ->. exists 1. split; [done|constructor].
Qed.

Lemma btree_insert_snoc m t :
  Forall (fun x => msg_id x < msg_id m) t → btree_insert m t = t ++ [m].
Proof.
  induction 1 as [|x t Hx _ IH]; simpl; [done|].
  destruct (Z.ltb_spec (msg_id m) (msg_id x)); [lia|]. by rewrite IH.
Qed.

Lemma btree_insert_perm m t : btree_insert m t ≡ₚ m :: t.
Proof.
  induction t as [|x t IH]; simpl; [done|].
  destruct (msg_id m <? msg_id x); [done|].
  rewrite IH. apply perm_swap.
Qed.

Lemma btree_insert_ascending m t :
  StronglySorted (fun a b => msg_id a < msg_id b) t →
  Forall (fun x => msg_id x ≠ msg_id m) t →
  StronglySorted (fun a b => msg_id a < msg_id b) (btree_insert m t).
Proof.
  induction 1 as [|x t Ht IH Hx]; intros Hne; simpl.
  - repeat constructor.
  - apply Forall_cons in Hne as [Hxm Hne].
    destruct (Z.ltb_spec (msg_id m) (msg_id x)) as [Hlt|Hge].
    + constructor; [by constructor|].
      constructor; [done|].
      eapply Forall_impl; [exact Hx|]. simpl. intros; lia.
    + constructor; [by apply IH|].
      rewrite btree_insert_perm. constructor; [lia|done].
Qed.

Lemma btree_insert_ok m t :
  table_ok t →
  Forall (fun x => msg_id x ≠ msg_id m) t →
  - MAX_ROWID - 1 <= msg_id m <= MAX_ROWID →
  table_ok (btree_insert m t).
Proof.
  intros [Hs Hr] Hne Hm. split; [by apply btree_insert_ascending|].
  rewrite btree_insert_perm. by constructor.
Qed.

Lemma select_btree_insert m t :
  Forall (fun x => msg_id x ≠ msg_id m) t →
  sql_select_by_id (msg_id m) (btree_insert m t) = Some m.
Proof.
  unfold sql_select_by_id, has_id.
  induction 1 as [|x t Hx _ IH]; simpl.
  - by rewrite Z.eqb_refl.
  - destruct (msg_id m <? msg_id x); simpl.
    + by rewrite Z.eqb_refl.
    + destruct (Z.eqb_spec (msg_id x) (msg_id m)); [done|apply IH].
Qed.

Lemma select_by_id_Some i t m :
  sql_select_by_id i t = Some m → m ∈ t ∧ msg_id m = i.
Proof.
  unfold sql_select_by_id. intros H. apply find_some in H as [Hin Hid].
  split; [by apply list_elem_of_In|]. unfold has_id in Hid. lia.
Qed.

Lemma select_by_id_None i t :
  sql_select_by_id i t = None ↔ Forall (fun x => msg_id x ≠ i) t.
Proof.
  unfold sql_select_by_id, has_id. induction t as [|x t IH]; simpl.
  - split; [constructor|done].
  - rewrite Forall_cons. destruct (Z.eqb_spec (msg_id x) i); [|tauto].
    split; [done|tauto].
Qed.

Lemma delete_absent i t :
  Forall (fun x => msg_id x ≠ i) t → sql_delete_by_id i t = t.
Proof.
  unfold sql_delete_by_id. induction 1 as [|x t Hx _ IH]; [done|].
  rewrite filter_cons_True by done. by rewrite IH.
Qed.

Lemma delete_elem_of i t x :
  x ∈ sql_delete_by_id i t ↔ x ∈ t ∧ msg_id x ≠ i.
Proof. unfold sql_delete_by_id. rewrite list_elem_of_filter. tauto. Qed.

(** Ids are keys: deleting by id takes out one row. *)
Lemma delete_present i t m :
  StronglySorted (fun a b => msg_id a < msg_id b) t →
  m ∈ t → msg_id m = i →
  ∃ t1 t2, t = t1 ++ m :: t2 ∧ sql_delete_by_id i t = t1 ++ t2.
Proof.
  intros Ht Hm Hi. apply list_elem_of_split in Hm as (t1 & t2 & ->).
  exists t1, t2. split; [done|].
  apply StronglySorted_app in Ht as (H12 & _ & Ht2).
  apply StronglySorted_cons in Ht2 as [Hm2 _].
  unfold sql_delete_by_id. rewrite filter_app, filter_cons_False by (simpl; lia).
  fold (sql_delete_by_id i t1). fold (sql_delete_by_id i t2).
  rewrite !delete_absent; [done| |].
  - eapply Forall_impl; [exact Hm2|]. simpl. intros; lia.
  - apply Forall_forall. intros y Hy.
    specialize (H12 y m Hy (list_elem_of_here _ _)). lia.
Qed.

Lemma Forall_delete (P : message → Prop) i t :
  Forall P t → Forall P (sql_delete_by_id i t).
Proof.
  rewrite !Forall_forall. intros H x Hx.
  apply delete_elem_of in Hx as [Hx _]. by apply H.
Qed.

Lemma delete_ok i t : table_ok t → table_ok (sql_delete_by_id i t).
Proof.
  intros [Hs Hr]. split; [|by apply Forall_delete].
  clear Hr. induction Hs as [|x t Ht IH Hx]; [constructor|].
  unfold sql_delete_by_id. rewrite filter_cons. case_decide; [|apply IH].
  constructor; [apply IH|]. by apply Forall_delete.
Qed.

End Store.

Ltac unfold_handler :=
  unfold try_handler, insert_message, pure, query, execute,
    mbind, handler_bind, mret, handler_ret in *.

Section Create.

Implicit Types (e : env) (rq : request) (t : table) (v : pyval).

Lemma bind_text_Ok v s : bind_text v = Ok s → v = PStr s.
Proof. destruct v; simpl; congruence. Qed.

Lemma py_getitem_Ok k v w :
  py_getitem k v = Ok w → ∃ d, v = PDict d ∧ dict_get k d = Some w.
Proof.
  destruct v as [| | | | | |d]; simpl; try done.
  destruct (dict_get k d) eqn:Hd; [|done]. intros [= ->]. eauto.
Qed.

Lemma py_int_raises s ex : py_int s = Raise ex → ex = ValueError.
Proof. unfold py_int. case_match; congruence. Qed.

(** A create request is answered with an error and leaves the table as it
    was, or inserts the row it was given. *)
Lemma handle_create_message_cases e rq t :
  (∃ status msg,
      handle_create_message e rq t = (Ok (Json status (ErrorEnvelope msg)), t) ∧
      (status = 400 ∨ status = 500)) ∨
  (∃ i d c ty,
      rfile rq = Loaded (PDict d) ∧
      dict_get "content" d = Some (PStr c) ∧
      dict_get "type" d = Some (PStr ty) ∧
      new_rowid e t = Ok i ∧
      let t' := btree_insert (Message i c ty (CURRENT_TIMESTAMP e)) t in
      handle_create_message e rq t =
        (match sql_select_by_id i t' with
         | Some m => Ok (Json 201 (MessageObject m))
         | None => Ok (Json 500 (ErrorEnvelope (InternalServerError TypeError)))
         end, t')).
Proof.
  unfold handle_create_message, json_loads, row_to_dict.
  unfold_handler. unfold sql_insert, send_error_response, send_json_response.
  unfold mbind, result_bind.
  repeat (case_match; simplify_eq/=; try (left; eauto 10; fail)).
  all: right.
  all: repeat match goal with
       | H : bind_text ?v = Ok _ |- _ => apply bind_text_Ok in H; subst v
       | H : py_getitem _ ?v = Ok _ |- _ =>
           apply py_getitem_Ok in H as (? & ? & ?); simplify_eq
       end.
  all: do 4 eexists; repeat split; eauto.
  all: simpl; by match goal with H : sql_select_by_id _ _ = _ |- _ => rewrite H end.
Qed.

End Create.

Section CreateValid.

Implicit Types (e : env) (rq : request) (t : table) (v : pyval).

Lemma in_VALID_TYPES_str ty :
  in_VALID_TYPES (PStr ty) = Ok (bool_decide (ty ∈ VALID_TYPES)).
Proof.
  unfold in_VALID_TYPES, VALID_TYPES. cbn [existsb eq_str]. f_equal.
  destruct (String.eqb_spec "insight" ty) as [<-|H1]; [done|].
  destruct (String.eqb_spec "decision" ty) as [<-|H2]; [done|].
  destruct (String.eqb_spec "observation" ty) as [<-|H3]; [done|].
  simpl. symmetry. apply bool_decide_eq_false.
  rewrite !elem_of_cons, elem_of_nil. intuition congruence.
Qed.

Lemma content_is_empty_str c :
  content_is_empty (PStr c) = Ok (bool_decide (strip c = "")).
Proof.
  unfold content_is_empty. cbn [truthy py_strip mbind result_bind].
  destruct (String.eqb_spec c "") as [->|Hc]; simpl; [done|].
  f_equal. destruct (String.eqb_spec (strip c) ""); simpl.
  - by rewrite bool_decide_eq_true_2.
  - by rewrite bool_decide_eq_false_2.
Qed.




End CreateValid.

Section Listing.

Implicit Types (q : gmap string (list string)) (t : table).

Lemma effective_limit_pos q limit : effective_limit q = Ok limit → 1 <= limit.
Proof.
  unfold effective_limit, try_except, first_value, mbind, result_bind.
  repeat case_match; intros; simplify_eq; lia.
Qed.

Lemma handle_get_messages_run q t :
  handle_get_messages q t =
    match effective_limit q with
    | Ok limit =>
        if limit <=? MAX_ROWID
        then (Ok (Json 200 (MessagesEnvelope
                              (take (Z.to_nat limit) (order_by_timestamp_desc t)))), t)
        else (Raise OverflowError, t)
    | Raise ex => (Raise ex, t)
    end.
Proof.
  unfold handle_get_messages. unfold_handler.
  destruct (effective_limit q) as [limit|ex] eqn:Hlimit; [|done].
  apply effective_limit_pos in Hlimit.
  unfold bind_int, sql_select_recent, send_json_response.
  destruct (Z.leb_spec limit MAX_ROWID);
    destruct (Z.leb_spec (- MAX_ROWID - 1) limit);
    try (unfold MAX_ROWID in *; lia); simpl; [|done].
  destruct (Z.ltb_spec limit 0); [lia|done].
Qed.

Lemma table_ok_same_second : table_ok same_second.
Proof. split; repeat constructor; unfold MAX_ROWID; simpl; lia. Qed.

End Listing.

(** C1, as the code has it: every list request that is answered returns
    stored messages ordered by timestamp descending, and two messages with
    equal timestamps stand in ascending id order; the table is not
    changed. *)
Theorem list_newest_first_ties_by_ascending_id
    (q : gmap string (list string)) (t : table) (r : response) (t' : table) :
  table_ok t →
  handle_get_messages q t = (Ok r, t') →
  ∃ ms, r = Json 200 (MessagesEnvelope ms) ∧
        StronglySorted newest_first_id_asc ms ∧
        (∀ m, m ∈ ms → m ∈ t) ∧
        t' = t.
Proof.
  intros [Hs _] Hrun. rewrite handle_get_messages_run in Hrun.
  destruct (effective_limit q) as [limit|ex] eqn:Hlimit; [|done].
  destruct (limit <=? MAX_ROWID); [|done].
  injection Hrun as <- <-. eexists. split; [done|].
  apply effective_limit_pos in Hlimit.
  assert (take (Z.to_nat limit) (order_by_timestamp_desc t) = sql_select_recent limit t)
    as ->.
  { unfold sql_select_recent. destruct (Z.ltb_spec limit 0); [lia|done]. }
  split; [by apply sql_select_recent_sorted|].
  split; [|done]. intros m. apply sql_select_recent_elem.
Qed.

Lemma list_newest_first_ties_by_ascending_id_witness :
  ∃ ms, Json 200 (MessagesEnvelope same_second) = Json 200 (MessagesEnvelope ms) ∧
        StronglySorted newest_first_id_asc ms ∧
        (∀ m, m ∈ ms → m ∈ same_second) ∧
        same_second = same_second.
Proof.
  apply (list_newest_first_ties_by_ascending_id ∅ same_second).
  - exact table_ok_same_second.
  - reflexivity.
Defined.

(** C1, as stated, fails: two messages of the same second are listed with
    the lower id first, not in descending id order. *)
Lemma list_ties_not_by_descending_id :
  table_ok same_second ∧
  handle_get_messages ∅ same_second
    = (Ok (Json 200 (MessagesEnvelope same_second)), same_second) ∧
  ¬ StronglySorted newest_first_id_desc same_second.
Proof.
  split; [exact table_ok_same_second|]. split; [reflexivity|].
  intros H. apply StronglySorted_cons in H as [H _].
  apply Forall_cons in H as [H _].
  unfold newest_first_id_desc in H. simpl in H. lia.
Qed.



(** C7: clearing a table of N rows removes them all and answers
    200 with [deleted_count] N; a list request made afterwards returns no
    message. *)
Theorem clear_removes_all_and_counts (t : table) :
  handle_clear_messages t
    = (Ok (Json 200 (DeletedCountEnvelope (Z.of_nat (length t)))), []) ∧
  (∀ q limit, effective_limit q = Ok limit → limit <= MAX_ROWID →
     handle_get_messages q [] = (Ok (Json 200 (MessagesEnvelope [])), [])).
Proof.
  split; [reflexivity|].
  intros q limit Hlimit Hle. rewrite handle_get_messages_run, Hlimit.
  destruct (Z.leb_spec limit MAX_ROWID); [|lia].
  change (order_by_timestamp_desc []) with (@nil message). by rewrite take_nil.
Qed.

Lemma clear_removes_all_and_counts_witness :
  handle_clear_messages same_second
    = (Ok (Json 200 (DeletedCountEnvelope 2)), []) ∧
  handle_get_messages ∅ [] = (Ok (Json 200 (MessagesEnvelope [])), []).
Proof.
  split.
  - exact (proj1 (clear_removes_all_and_counts same_second)).
  - apply (proj2 (clear_removes_all_and_counts same_second) ∅ 200);
      [reflexivity|unfold MAX_ROWID; lia].
Defined.

Section Invariant.

Implicit Types (e : env) (rq : request) (t : table).

Lemma handle_create_message_created e rq t m t' :
  table_ok t →
  handle_create_message e rq t = (Ok (Json 201 (MessageObject m)), t') →
  ∃ c ty, m = Message (msg_id m) c ty (CURRENT_TIMESTAMP e) ∧
          new_rowid e t = Ok (msg_id m) ∧
          t' = btree_insert m t.
Proof.
  intros Hok Hrun.
  destruct (handle_create_message_cases e rq t)
    as [(status & msg & Herr & _)|(i & d & c & ty & _ & _ & _ & Hnew & Hins)].
  { rewrite Herr in Hrun. congruence. }
  simpl in Hins. rewrite Hins in Hrun. clear Hins.
  destruct (new_rowid_fresh e t i Hok Hnew) as [Hfresh _].
  set (m0 := Message i c ty (CURRENT_TIMESTAMP e)) in *.
  change i with (msg_id m0) in Hrun at 1.
  rewrite select_btree_insert in Hrun by done.
  injection Hrun as <- <-. exists c, ty. by repeat split.
Qed.

Lemma handle_create_message_table_ok e rq t r t' :
  table_ok t → handle_create_message e rq t = (r, t') → table_ok t'.
Proof.
  intros Hok Hrun.
  destruct (handle_create_message_cases e rq t)
    as [(status & msg & Herr & _)|(i & d & c & ty & _ & _ & _ & Hnew & Hins)].
  { rewrite Herr in Hrun. by injection Hrun as _ <-. }
  simpl in Hins. rewrite Hins in Hrun. injection Hrun as _ <-.
  destruct (new_rowid_fresh e t i Hok Hnew) as [Hfresh Hrange].
  by apply btree_insert_ok.
Qed.

Lemma handle_delete_message_run i t :
  handle_delete_message i t =
    if (- MAX_ROWID - 1 <=? i) && (i <=? MAX_ROWID)
    then match sql_select_by_id i t with
         | Some _ => (Ok (Json 200 (DeletedEnvelope i)), sql_delete_by_id i t)
         | None => (Ok (Json 404 (ErrorEnvelope (Text "Message not found"))), t)
         end
    else (Raise OverflowError, t).
Proof.
  unfold handle_delete_message, bind_int. unfold_handler.
  destruct ((- MAX_ROWID - 1 <=? i) && (i <=? MAX_ROWID)); [|done].
  by destruct (sql_select_by_id i t).
Qed.

Lemma handle_get_messages_table q t r t' :
  handle_get_messages q t = (r, t') → t' = t.
Proof.
  rewrite handle_get_messages_run. repeat case_match; congruence.
Qed.

(** Every request leaves the table in order. *)
Lemma handle_one_request_table_ok e rq t r t' :
  table_ok t → handle_one_request e rq t = (r, t') → table_ok t'.
Proof.
  intros Hok. unfold handle_one_request, do_GET, do_POST, do_DELETE, do_OPTIONS.
  repeat case_match; unfold_handler;
    try (intros [= _ <-]; done || apply table_ok_nil).
  - intros Hrun. by apply handle_get_messages_table in Hrun as ->.
  - by apply handle_create_message_table_ok.
  - destruct (py_int _); [|by intros [= _ <-]].
    rewrite handle_delete_message_run.
    repeat case_match; intros [= _ <-]; done || by apply delete_ok.
Qed.

Lemma serve_table_ok reqs t rs t' :
  table_ok t → serve reqs t = (rs, t') → table_ok t'.
Proof.
  revert t rs. induction reqs as [|[e rq] reqs IH]; intros t rs Hok; simpl.
  - by intros [= _ <-].
  - destruct (handle_one_request e rq t) as [r t1] eqn:H1.
    destruct (serve reqs t1) as [rs' t2] eqn:H2.
    intros [= _ <-]. eapply IH; [|done].
    by eapply handle_one_request_table_ok.
Qed.

End Invariant.

(** C2, as the code has it: the id a create assigns differs from the id of
    every row stored at that moment, and is greater than all of them as
    long as the largest rowid is free; the table keeps one row per id. *)
Theorem created_id_fresh_among_stored
    (e : env) (rq : request) (t : table) (m : message) (t' : table) :
  table_ok t →
  handle_create_message e rq t = (Ok (Json 201 (MessageObject m)), t') →
  (∀ x, x ∈ t → msg_id x ≠ msg_id m) ∧
  (has_room t → ∀ x, x ∈ t → msg_id x < msg_id m) ∧
  t' ≡ₚ m :: t ∧
  table_ok t'.
Proof.
  intros Hok Hrun.
  pose proof (handle_create_message_table_ok _ _ _ _ _ Hok Hrun) as Hok'.
  destruct (handle_create_message_created e rq t m t' Hok Hrun)
    as (c & ty & _ & Hnew & ->).
  destruct (new_rowid_fresh e t _ Hok Hnew) as [Hfresh _].
  rewrite Forall_forall in Hfresh.
  split; [done|]. split; [|split; [apply btree_insert_perm|done]].
  intros Hroom.
  destruct (new_rowid_has_room e t Hok Hroom) as (i & Hnew' & Hlt).
  rewrite Hnew in Hnew'. injection Hnew' as <-.
  by rewrite Forall_forall in Hlt.
Qed.

Lemma created_id_fresh_among_stored_witness :
  let m := Message 3 "third" "observation" 100 in
  (∀ x, x ∈ same_second → msg_id x ≠ msg_id m) ∧
  (has_room same_second → ∀ x, x ∈ same_second → msg_id x < msg_id m) ∧
  same_second ++ [m] ≡ₚ m :: same_second ∧
  table_ok (same_second ++ [m]).
Proof.
  apply (created_id_fresh_among_stored sample_env
           (post_message "third" "observation") same_second).
  - exact table_ok_same_second.
  - reflexivity.
Defined.

(** C2, as stated, fails: after the only row is deleted, the next create
    assigns its id again. *)
Lemma id_reused_after_delete :
  let run := serve [ (sample_env, post_message "a" "insight");
                     (sample_env, delete_request "/messages/1");
                     (sample_env, post_message "b" "insight") ] [] in
  assigned_ids run.1 = [1; 1] ∧
  ¬ NoDup (assigned_ids run.1) ∧
  ¬ StronglySorted Z.lt (assigned_ids run.1).
Proof.
  assert (assigned_ids
            (serve [ (sample_env, post_message "a" "insight");
                     (sample_env, delete_request "/messages/1");
                     (sample_env, post_message "b" "insight") ] []).1 = [1; 1])
    as Hids by reflexivity.
  cbv zeta. rewrite Hids. split; [done|]. split.
  - intros H. apply NoDup_cons in H as [H _]. apply H. left.
  - intros H. apply StronglySorted_cons in H as [H _].
    apply Forall_cons in H as [H _]. lia.
Qed.







(** C10: a create request whose body is a JSON object with a valid type and
    a content that is truthy but no string is answered with the 500
    envelope of an internal error, raised by the call of [strip]; nothing is
    stored.  The number 123 is such a content. *)
Theorem truthy_non_string_content_answered_500
    (e : env) (rq : request) (t : table)
    (d : list (string * pyval)) (v : pyval) (ty : string) :
  has_body rq →
  rfile rq = Loaded (PDict d) →
  dict_get "content" d = Some v →
  truthy v = true →
  (∀ s, v ≠ PStr s) →
  dict_get "type" d = Some (PStr ty) →
  ty ∈ VALID_TYPES →
  handle_create_message e rq t
    = (Ok (Json 500 (ErrorEnvelope (InternalServerError AttributeError))), t).
Proof.
  intros (s & n & Hlen & Hint & Hn) Hbody Hc Htruthy Hstr Hty Hin.
  unfold handle_create_message. unfold_handler.
  rewrite Hlen, Hint, Hbody.
  destruct (Z.eqb_spec n 0) as [|_]; [done|].
  cbn [json_loads py_contains py_getitem negb find fst snd].
  rewrite Hc, Hty. cbn [negb].
  rewrite in_VALID_TYPES_str, bool_decide_eq_true_2 by done. cbn [negb].
  unfold content_is_empty. rewrite Htruthy. cbn [negb].
  destruct v; try done. by destruct (Hstr s0).
Qed.

Lemma truthy_non_string_content_answered_500_witness :
  handle_create_message sample_env
    (Request "POST" "/messages" ∅ (Some "37")
       (Loaded (PDict [("content", PInt 123); ("type", PStr "insight")])))
    same_second
  = (Ok (Json 500 (ErrorEnvelope (InternalServerError AttributeError))),
     same_second).
Proof.
  apply (truthy_non_string_content_answered_500 sample_env _ same_second
           [("content", PInt 123); ("type", PStr "insight")] (PInt 123) "insight").
  - exists "37", 37. split; [reflexivity|]. split; [reflexivity|lia].
  - reflexivity.
  - reflexivity.
  - reflexivity.
  - intros s. discriminate.
  - reflexivity.
  - apply list_elem_of_In. vm_compute. tauto.
Defined.

Section Recency.

Implicit Types (e : env) (rq : request) (t s : table) (m x : message).




(** A row later than every other one heads the listing. *)
Lemma latest_row_listed_first t m :
  StronglySorted (fun a b => msg_id a < msg_id b) t →
  m ∈ t →
  (∀ x, x ∈ t → x ≠ m → msg_timestamp x < msg_timestamp m) →
  take 1 (order_by_timestamp_desc t) = [m].
Proof.
  intros Ht Hm Hlater.
  pose proof (order_by_timestamp_desc_sorted t Ht) as Hsorted.
  pose proof (order_by_timestamp_desc_perm t) as Hperm.
  destruct (order_by_timestamp_desc t) as [|h s].
  - rewrite <- Hperm in Hm. by apply elem_of_nil in Hm.
  - simpl. f_equal.
    destruct (decide (h = m)) as [|Hne]; [done|exfalso].
    assert (h ∈ t) as Hh by (rewrite <- Hperm; left).
    specialize (Hlater h Hh Hne).
    rewrite <- Hperm in Hm. apply elem_of_cons in Hm as [->|Hm]; [done|].
    apply StronglySorted_cons in Hsorted as [Hhead _].
    rewrite Forall_forall in Hhead. specialize (Hhead m Hm).
    unfold newest_first_id_asc in Hhead. lia.
Qed.

End Recency.

Section DeleteOne.

Implicit Types (i : Z) (t : table) (m : message).

(** Deleting one message by an id SQLite can bind: a stored row is taken
    out, alone, and is gone for later requests; an absent id changes
    nothing and is answered 404. *)
Lemma handle_delete_message_in_range i t :
  table_ok t → - MAX_ROWID - 1 <= i <= MAX_ROWID →
  (∀ m, m ∈ t → msg_id m = i →
     ∃ t1 t2, t = t1 ++ m :: t2 ∧
       handle_delete_message i t = (Ok (Json 200 (DeletedEnvelope i)), t1 ++ t2) ∧
       (∀ x, x ∈ t1 ++ t2 → msg_id x ≠ i) ∧
       handle_delete_message i (t1 ++ t2)
         = (Ok (Json 404 (ErrorEnvelope (Text "Message not found"))), t1 ++ t2)) ∧
  ((∀ m, m ∈ t → msg_id m ≠ i) →
   handle_delete_message i t
     = (Ok (Json 404 (ErrorEnvelope (Text "Message not found"))), t)).
Proof.
  intros [Hs _] Hi.
  assert ((- MAX_ROWID - 1 <=? i) && (i <=? MAX_ROWID) = true) as Hbind.
  { apply andb_true_intro. split; apply Z.leb_le; lia. }
  assert (∀ t0, (∀ x, x ∈ t0 → msg_id x ≠ i) →
            handle_delete_message i t0
              = (Ok (Json 404 (ErrorEnvelope (Text "Message not found"))), t0))
    as Habsent.
  { intros t0 Ht0. rewrite handle_delete_message_run, Hbind.
    apply Forall_forall, select_by_id_None in Ht0. by rewrite Ht0. }
  split; [|apply Habsent].
  intros m Hm Hid.
  destruct (delete_present i t m Hs Hm Hid) as (t1 & t2 & -> & Hdel).
  exists t1, t2. split; [done|].
  assert (∀ x, x ∈ t1 ++ t2 → msg_id x ≠ i) as Hgone.
  { intros x Hx. rewrite <- Hdel in Hx. by apply delete_elem_of in Hx as [_ ?]. }
  split; [|split; [done|by apply Habsent]].
  rewrite handle_delete_message_run, Hbind, Hdel.
  destruct (sql_select_by_id i (t1 ++ m :: t2)) eqn:Hsel; [done|].
  apply select_by_id_None in Hsel. rewrite Forall_forall in Hsel.
  by destruct (Hsel m Hm).
Qed.

End DeleteOne.

(** C6, where the code departs from it: the path [/messages/N] with N one
    above the largest rowid is a delete-one request, no row has that id, and
    the request is not answered 404: binding N raises [OverflowError], which
    nothing catches, so no response is sent.  The table is not changed. *)
Theorem delete_beyond_max_rowid_unanswered (e : env) (t : table) :
  match_message_path "/messages/9223372036854775808" = Some "9223372036854775808" ∧
  py_int "9223372036854775808" = Ok (MAX_ROWID + 1) ∧
  handle_one_request e (delete_request "/messages/9223372036854775808") t
    = (Raise OverflowError, t).
Proof. repeat split. Qed.




(** C9, as the code has it: after a successful create whose message has a
    timestamp later than that of every other stored message, a list request
    with limit 1 returns the created message as its only entry. *)
Theorem create_then_list_one
    (e : env) (rq : request) (t : table) (m : message) (t' : table)
    (q : gmap string (list string)) :
  table_ok t →
  handle_create_message e rq t = (Ok (Json 201 (MessageObject m)), t') →
  (∀ x, x ∈ t → msg_timestamp x < msg_timestamp m) →
  effective_limit q = Ok 1 →
  handle_get_messages q t' = (Ok (Json 200 (MessagesEnvelope [m])), t').
Proof.
  intros Hok Hrun Hlater Hlimit.
  pose proof (handle_create_message_table_ok _ _ _ _ _ Hok Hrun) as [Hs' _].
  destruct (handle_create_message_created e rq t m t' Hok Hrun)
    as (c & ty & _ & _ & ->).
  rewrite handle_get_messages_run, Hlimit.
  change (1 <=? MAX_ROWID) with true. cbv iota.
  change (Z.to_nat 1) with 1%nat.
  rewrite (latest_row_listed_first _ m); [done|done| |].
  - rewrite btree_insert_perm. left.
  - intros x Hx Hne. rewrite btree_insert_perm in Hx.
    apply elem_of_cons in Hx as [->|Hx]; [done|by apply Hlater].
Qed.

Lemma create_then_list_one_witness :
  let m := Message 3 "later" "insight" 101 in
  handle_get_messages (limit_query "1") (same_second ++ [m])
    = (Ok (Json 200 (MessagesEnvelope [m])), same_second ++ [m]).
Proof.
  apply (create_then_list_one (Env 101 None) (post_message "later" "insight")
           same_second (Message 3 "later" "insight" 101)).
  - exact table_ok_same_second.
  - reflexivity.
  - intros x Hx. apply list_elem_of_In in Hx. simpl in Hx.
    destruct Hx as [<-|[<-|[]]]; simpl; lia.
  - reflexivity.
Defined.

(** C9, as stated, fails: the message just created is the most recent one,
    no other being later by timestamp or by id, yet the list of limit 1
    returns the older message of the same second. *)
Lemma create_then_list_one_returns_older :
  let m1 := Message 1 "first" "insight" 100 in
  let m2 := Message 2 "second" "decision" 100 in
  handle_create_message sample_env (post_message "second" "decision") [m1]
    = (Ok (Json 201 (MessageObject m2)), [m1; m2]) ∧
  most_recent m2 [m1; m2] ∧
  handle_get_messages (limit_query "1") [m1; m2]
    = (Ok (Json 200 (MessagesEnvelope [m1])), [m1; m2]) ∧
  [m1] ≠ [m2].
Proof.
  cbv zeta. split; [reflexivity|]. split; [|split; [reflexivity|discriminate]].
  split; [apply list_elem_of_In; simpl; tauto|].
  intros x Hx. apply list_elem_of_In in Hx. simpl in Hx.
  destruct Hx as [<-|[<-|[]]]; simpl; lia.
Qed.

(** * Further properties of the handlers *)

Section CreateOutcomes.

Implicit Types (e : env) (rq : request) (t : table) (v : pyval).

Lemma in_VALID_TYPES_true v :
  in_VALID_TYPES v = Ok true → ∃ ty, v = PStr ty ∧ ty ∈ VALID_TYPES.
Proof.
  destruct v as [| | | |ty| |]; try (cbv; congruence).
  rewrite in_VALID_TYPES_str. intros [= H%bool_decide_eq_true]. eauto.
Qed.

(** What a create request does to the table: nothing, with an error for an
    answer, or the insertion of the row a valid request describes. *)
Lemma handle_create_message_outcome e rq t :
  (∃ status msg,
      handle_create_message e rq t = (Ok (Json status (ErrorEnvelope msg)), t) ∧
      (status = 400 ∨ status = 500)) ∨
  (∃ i c ty,
      valid_create rq c ty ∧ new_rowid e t = Ok i ∧
      let t' := btree_insert (Message i c ty (CURRENT_TIMESTAMP e)) t in
      handle_create_message e rq t =
        (match sql_select_by_id i t' with
         | Some m => Ok (Json 201 (MessageObject m))
         | None => Ok (Json 500 (ErrorEnvelope (InternalServerError TypeError)))
         end, t')).
Proof.
  unfold handle_create_message, json_loads, row_to_dict.
  unfold_handler. unfold sql_insert, send_error_response, send_json_response.
  unfold mbind, result_bind.
  repeat (case_match; simplify_eq/=; try (left; eauto 10; fail)).
  all: right.
  all: repeat match goal with
       | H : bind_text ?v = Ok _ |- _ => apply bind_text_Ok in H; subst v
       | H : py_getitem _ ?v = Ok _ |- _ =>
           apply py_getitem_Ok in H as (? & ? & ?); simplify_eq
       | H : negb ?b = false |- _ => apply negb_false_iff in H; subst b
       | H : in_VALID_TYPES _ = Ok true |- _ =>
           apply in_VALID_TYPES_true in H as (? & ? & ?); simplify_eq
       | H : content_is_empty (PStr _) = Ok false |- _ =>
           rewrite content_is_empty_str in H;
           injection H as H; apply bool_decide_eq_false in H
       | H : (_ =? 0) = false |- _ => apply Z.eqb_neq in H
       end.
  all: do 3 eexists; split; [|split; [done|]].
  all: try (simpl; by match goal with
                      | H : sql_select_by_id _ _ = _ |- _ => rewrite H
                      end).
  all: split; [by do 2 eexists|].
  all: eexists; split; [done|]; split; [done|]; split; [done|]; by split.
Qed.

(** On a table in order, the answer to a create request is the 201 with the
    inserted row, or an error that leaves the table. *)
Lemma handle_create_message_answer e rq t :
  table_ok t →
  (∃ m, handle_create_message e rq t
          = (Ok (Json 201 (MessageObject m)), btree_insert m t) ∧
        new_rowid e t = Ok (msg_id m) ∧
        Forall (fun x => msg_id x ≠ msg_id m) t) ∨
  (∃ status msg,
      handle_create_message e rq t = (Ok (Json status (ErrorEnvelope msg)), t) ∧
      (status = 400 ∨ status = 500)).
Proof.
  intros Hok.
  destruct (handle_create_message_outcome e rq t)
    as [Herr|(i & c & ty & _ & Hnew & Hins)]; [by right|left].
  simpl in Hins.
  destruct (new_rowid_fresh e t i Hok Hnew) as [Hfresh _].
  set (m := Message i c ty (CURRENT_TIMESTAMP e)) in *.
  change i with (msg_id m) in Hins at 1.
  rewrite select_btree_insert in Hins by done.
  by exists m.
Qed.

End CreateOutcomes.

(** X1: A create request is always answered, with status 201, 400 or 500; the
    table gains the returned row with 201 and is left as it was otherwise. *)
Theorem create_always_answers (e : env) (rq : request) (t : table) :
  table_ok t →
  ∃ status data t',
    handle_create_message e rq t = (Ok (Json status data), t') ∧
    ((status = 201 ∧ ∃ m, data = MessageObject m ∧ t' ≡ₚ m :: t ∧
        ∀ x, x ∈ t → msg_id x ≠ msg_id m) ∨
     ((status = 400 ∨ status = 500) ∧ (∃ msg, data = ErrorEnvelope msg) ∧ t' = t)).
Proof.
  intros Hok.
  destruct (handle_create_message_outcome e rq t)
    as [(status & msg & Herr & Hstatus)|(i & c & ty & _ & Hnew & Hins)].
  - exists status, (ErrorEnvelope msg), t. split; [done|]. right. eauto.
  - simpl in Hins.
    destruct (new_rowid_fresh e t i Hok Hnew) as [Hfresh _].
    set (m := Message i c ty (CURRENT_TIMESTAMP e)) in *.
    change i with (msg_id m) in Hins at 1.
    rewrite select_btree_insert in Hins by done.
    exists 201, (MessageObject m), (btree_insert m t). split; [done|]. left.
    split; [done|]. exists m. split; [done|]. split; [apply btree_insert_perm|].
    by rewrite Forall_forall in Hfresh.
Qed.

Lemma create_always_answers_witness :
  ∃ status data t',
    handle_create_message sample_env (post_message "x" "insight") same_second
      = (Ok (Json status data), t') ∧
    ((status = 201 ∧ ∃ m, data = MessageObject m ∧ t' ≡ₚ m :: same_second ∧
        ∀ x, x ∈ same_second → msg_id x ≠ msg_id m) ∨
     ((status = 400 ∨ status = 500) ∧ (∃ msg, data = ErrorEnvelope msg) ∧
      t' = same_second)).
Proof.
  apply (create_always_answers sample_env (post_message "x" "insight") same_second).
  exact table_ok_same_second.
Defined.





(** X4: A JSON object without the key [content] is answered 400 ['content' field
    is required], whether or not it has a type; with [content] but without
    [type] it is answered 400 ['type' field is required].  The values are
    not looked at. *)
Theorem create_missing_field_rejected
    (e : env) (rq : request) (t : table) (d : list (string * pyval)) :
  has_body rq →
  rfile rq = Loaded (PDict d) →
  (dict_get "content" d = None →
   handle_create_message e rq t
     = (Ok (Json 400 (ErrorEnvelope (Text "'content' field is required"))), t)) ∧
  (dict_get "content" d ≠ None → dict_get "type" d = None →
   handle_create_message e rq t
     = (Ok (Json 400 (ErrorEnvelope (Text "'type' field is required"))), t)).
Proof.
  intros (s & n & Hlen & Hint & Hn) Hbody.
  unfold handle_create_message. unfold_handler.
  rewrite Hlen, Hint, Hbody.
  destruct (Z.eqb_spec n 0) as [|_]; [done|].
  cbn [json_loads py_contains].
  split.
  - by intros ->.
  - intros Hc Hty. destruct (dict_get "content" d); [|done]. by rewrite Hty.
Qed.

Lemma create_missing_field_rejected_witness :
  handle_create_message sample_env
    (Request "POST" "/messages" ∅ (Some "20")
       (Loaded (PDict [("type", PStr "insight")]))) same_second
  = (Ok (Json 400 (ErrorEnvelope (Text "'content' field is required"))), same_second) ∧
  handle_create_message sample_env
    (Request "POST" "/messages" ∅ (Some "20")
       (Loaded (PDict [("content", PNone)]))) same_second
  = (Ok (Json 400 (ErrorEnvelope (Text "'type' field is required"))), same_second).
Proof.
  assert (∀ b, has_body (Request "POST" "/messages" ∅ (Some "20") b)) as Hb.
  { intros b. exists "20", 20. split; [reflexivity|]. split; [reflexivity|lia]. }
  split.
  - apply (proj1 (create_missing_field_rejected sample_env _ same_second
                    [("type", PStr "insight")] (Hb _) eq_refl)).
    reflexivity.
  - apply (proj2 (create_missing_field_rejected sample_env _ same_second
                    [("content", PNone)] (Hb _) eq_refl)).
    + discriminate.
    + reflexivity.
Defined.



(** X6: With a valid type, a content that is falsy (an empty string, zero,
    [null], [false], an empty array or object) or a string of white space
    only is answered 400 ['content' cannot be empty]; nothing is stored. *)
Theorem create_empty_content_rejected
    (e : env) (rq : request) (t : table)
    (d : list (string * pyval)) (v : pyval) (ty : string) :
  has_body rq →
  rfile rq = Loaded (PDict d) →
  dict_get "content" d = Some v →
  dict_get "type" d = Some (PStr ty) →
  ty ∈ VALID_TYPES →
  truthy v = false ∨ (∃ c, v = PStr c ∧ strip c = "") →
  handle_create_message e rq t
    = (Ok (Json 400 (ErrorEnvelope (Text "'content' cannot be empty"))), t).
Proof.
  intros (s & n & Hlen & Hint & Hn) Hbody Hc Hty Hin Hempty.
  unfold handle_create_message. unfold_handler.
  rewrite Hlen, Hint, Hbody.
  destruct (Z.eqb_spec n 0) as [|_]; [done|].
  cbn [json_loads py_contains py_getitem negb].
  rewrite Hc, Hty. cbn [negb].
  rewrite in_VALID_TYPES_str, bool_decide_eq_true_2 by done. cbn [negb].
  assert (content_is_empty v = Ok true) as ->; [|done].
  destruct Hempty as [Hfalsy|(c & -> & Hblank)].
  - unfold content_is_empty. by rewrite Hfalsy.
  - rewrite content_is_empty_str. by rewrite bool_decide_eq_true_2.
Qed.

Lemma create_empty_content_rejected_witness :
  handle_create_message sample_env
    (Request "POST" "/messages" ∅ (Some "30")
       (Loaded (PDict [("content", PInt 0); ("type", PStr "decision")])))
    same_second
  = (Ok (Json 400 (ErrorEnvelope (Text "'content' cannot be empty"))), same_second).
Proof.
  apply (create_empty_content_rejected sample_env _ same_second
           [("content", PInt 0); ("type", PStr "decision")] (PInt 0) "decision").
  - exists "30", 30. split; [reflexivity|]. split; [reflexivity|lia].
  - reflexivity.
  - reflexivity.
  - reflexivity.
  - apply list_elem_of_In. vm_compute. tauto.
  - left. reflexivity.
Defined.

(** X7: A list request whose limit SQLite can bind returns rows of the table,
    each at most once, and as many as the limit allows: the smaller of the
    limit and the number of rows.  The table is not changed. *)
Theorem list_returns_limit_rows
    (q : gmap string (list string)) (t : table) (limit : Z) :
  effective_limit q = Ok limit →
  limit <= MAX_ROWID →
  ∃ ms rest,
    handle_get_messages q t = (Ok (Json 200 (MessagesEnvelope ms)), t) ∧
    ms ++ rest ≡ₚ t ∧
    length ms = Nat.min (Z.to_nat limit) (length t).
Proof.
  intros Hlimit Hle.
  exists (take (Z.to_nat limit) (order_by_timestamp_desc t)),
         (drop (Z.to_nat limit) (order_by_timestamp_desc t)).
  split; [|split].
  - rewrite handle_get_messages_run, Hlimit.
    destruct (Z.leb_spec limit MAX_ROWID); [done|lia].
  - rewrite take_drop. apply order_by_timestamp_desc_perm.
  - rewrite length_take. by rewrite (Permutation_length (order_by_timestamp_desc_perm t)).
Qed.

Lemma list_returns_limit_rows_witness :
  ∃ ms rest,
    handle_get_messages (limit_query "1") same_second
      = (Ok (Json 200 (MessagesEnvelope ms)), same_second) ∧
    ms ++ rest ≡ₚ same_second ∧
    length ms = Nat.min (Z.to_nat 1) (length same_second).
Proof.
  apply (list_returns_limit_rows (limit_query "1") same_second 1).
  - reflexivity.
  - unfold MAX_ROWID. lia.
Defined.



(** X9: When every parameter of the query has a value, as [parse_qs] gives
    them, the limit is defined and at least 1, whatever the parameters
    are. *)
Theorem effective_limit_defined (q : gmap string (list string)) :
  (∀ values, q !! "limit" = Some values → values ≠ []) →
  ∃ limit, effective_limit q = Ok limit ∧ 1 <= limit.
Proof.
  intros Hq.
  assert (∃ limit, effective_limit q = Ok limit) as [limit Hlimit].
  { unfold effective_limit, try_except, first_value, mbind, result_bind.
    destruct (q !! "limit") as [[|v vs]|] eqn:Hlookup; [by destruct (Hq [])| |eauto].
    destruct (py_int v) as [n|ex] eqn:Hint; [eauto|].
    apply py_int_raises in Hint as ->. eauto. }
  exists limit. split; [done|]. by apply effective_limit_pos in Hlimit.
Qed.

Lemma effective_limit_defined_witness :
  ∃ limit, effective_limit (limit_query "ten") = Ok limit ∧ 1 <= limit.
Proof.
  apply (effective_limit_defined (limit_query "ten")).
  intros values Hvalues. injection Hvalues as <-. discriminate.
Defined.

(** X10: After a delete request was answered 200 for an id, no list request
    returns a message with that id, and every other row is still stored. *)
Theorem delete_then_list_excludes (i j : Z) (t t' : table) :
  handle_delete_message i t = (Ok (Json 200 (DeletedEnvelope j)), t') →
  j = i ∧
  (∀ x, x ∈ t → msg_id x ≠ i → x ∈ t') ∧
  (∀ q ms t'', handle_get_messages q t' = (Ok (Json 200 (MessagesEnvelope ms)), t'') →
     ∀ x, x ∈ ms → msg_id x ≠ i).
Proof.
  rewrite handle_delete_message_run.
  destruct ((- MAX_ROWID - 1 <=? i) && (i <=? MAX_ROWID)); [|done].
  destruct (sql_select_by_id i t); [|done].
  intros [= <- <-]. split; [done|]. split.
  - intros x Hx Hne. by apply delete_elem_of.
  - intros q ms t'' Hlist x Hx.
    rewrite handle_get_messages_run in Hlist.
    destruct (effective_limit q) as [limit|]; [|done].
    destruct (limit <=? MAX_ROWID); [|done].
    injection Hlist as <- _.
    apply elem_of_take in Hx as (k & Hk & _).
    apply list_elem_of_lookup_2 in Hk.
    rewrite order_by_timestamp_desc_perm in Hk.
    by apply delete_elem_of in Hk as [_ ?].
Qed.

Lemma delete_then_list_excludes_witness :
  2 = 2 ∧
  (∀ x, x ∈ same_second → msg_id x ≠ 2 → x ∈ [Message 1 "first" "insight" 100]) ∧
  (∀ q ms t'',
     handle_get_messages q [Message 1 "first" "insight" 100]
       = (Ok (Json 200 (MessagesEnvelope ms)), t'') →
     ∀ x, x ∈ ms → msg_id x ≠ 2).
Proof.
  apply (delete_then_list_excludes 2 2 same_second).
  reflexivity.
Defined.

Lemma handle_delete_message_in_range_witness :
  (∀ m, m ∈ same_second → msg_id m = 2 →
     ∃ t1 t2, same_second = t1 ++ m :: t2 ∧
       handle_delete_message 2 same_second
         = (Ok (Json 200 (DeletedEnvelope 2)), t1 ++ t2) ∧
       (∀ x, x ∈ t1 ++ t2 → msg_id x ≠ 2) ∧
       handle_delete_message 2 (t1 ++ t2)
         = (Ok (Json 404 (ErrorEnvelope (Text "Message not found"))), t1 ++ t2)) ∧
  ((∀ m, m ∈ same_second → msg_id m ≠ 2) →
   handle_delete_message 2 same_second
     = (Ok (Json 404 (ErrorEnvelope (Text "Message not found"))), same_second)).
Proof.
  apply (handle_delete_message_in_range 2 same_second).
  - exact table_ok_same_second.
  - unfold MAX_ROWID. lia.
Defined.





(** X13: The table changes only with a success: a request that leaves the table
    different from what it was is a POST answered 201 or a DELETE answered
    200.  Every error answer, every unanswered request and every other
    method leaves the table as it was. *)
Theorem table_changes_only_on_success
    (e : env) (rq : request) (t : table) (r : result response) (t' : table) :
  table_ok t →
  handle_one_request e rq t = (r, t') →
  t' ≠ t →
  (command rq = "POST" ∧ ∃ m, r = Ok (Json 201 (MessageObject m))) ∨
  (command rq = "DELETE" ∧
   ((∃ i, r = Ok (Json 200 (DeletedEnvelope i))) ∨
    (∃ n, r = Ok (Json 200 (DeletedCountEnvelope n))))).
Proof.
  intros Hok. unfold handle_one_request, do_GET, do_POST, do_DELETE, do_OPTIONS.
  destruct (String.eqb_spec (command rq) "GET") as [|_].
  { repeat case_match; unfold_handler; try by intros [= _ <-].
    intros Hrun. by apply handle_get_messages_table in Hrun as ->. }
  destruct (String.eqb_spec (command rq) "POST") as [Hpost|_].
  { case_match; unfold_handler; [|by intros [= _ <-]].
    destruct (handle_create_message_answer e rq t Hok)
      as [(m & -> & _)|(status & msg & -> & _)].
    - intros [= <- <-] _. left. eauto.
    - by intros [= _ <-]. }
  destruct (String.eqb_spec (command rq) "DELETE") as [Hdel|_].
  { case_match; unfold_handler.
    - destruct (py_int _); [|by intros [= _ <-]].
      rewrite handle_delete_message_run.
      repeat case_match; try by intros [= _ <-].
      intros [= <- <-] _. right. split; [done|]. left. eauto.
    - case_match; [|by intros [= _ <-]].
      intros [= <- <-] _. right. split; [done|]. right. eauto. }
  repeat case_match; unfold_handler; by intros [= _ <-].
Qed.

Lemma table_changes_only_on_success_witness :
  (command (delete_request "/messages") = "POST" ∧
     ∃ m, Ok (Json 200 (DeletedCountEnvelope 2)) = Ok (Json 201 (MessageObject m))) ∨
  (command (delete_request "/messages") = "DELETE" ∧
   ((∃ i, Ok (Json 200 (DeletedCountEnvelope 2)) = Ok (Json 200 (DeletedEnvelope i))) ∨
    (∃ n, Ok (Json 200 (DeletedCountEnvelope 2))
            = Ok (Json 200 (DeletedCountEnvelope n))))).
Proof.
  apply (table_changes_only_on_success sample_env (delete_request "/messages")
           same_second _ []).
  - exact table_ok_same_second.
  - reflexivity.
  - discriminate.
Defined.

Section Runs.

Implicit Types (e : env) (rq : request) (t : table) (m x : message).

Lemma ascending_ids_NoDup t :
  StronglySorted (fun a b => msg_id a < msg_id b) t → NoDup (msg_id <$> t).
Proof.
  induction 1 as [|x t _ IH Hx]; simpl; constructor; [|done].
  intros Hin. apply list_elem_of_fmap in Hin as (y & Heq & Hy).
  rewrite Forall_forall in Hx. specialize (Hx y Hy). lia.
Qed.

Lemma new_rowid_bounds e t i k :
  Forall (fun x => 1 <= msg_id x) t →
  new_rowid e t = Ok i →
  1 <= i ∧ (Forall (fun x => msg_id x <= k) t → 0 <= k → has_room t → i <= k + 1).
Proof.
  intros Hpos. unfold new_rowid, has_room.
  destruct (last t) as [x|] eqn:Hlast.
  - assert (x ∈ t) as Hx by by apply last_Some_elem_of.
    rewrite Forall_forall in Hpos. specialize (Hpos x Hx).
    destruct (Z.ltb_spec (msg_id x) MAX_ROWID) as [Hlt|Hge].
    + intros [= <-]. split; [lia|]. intros Hk _ _.
      rewrite Forall_forall in Hk. specialize (Hk x Hx). lia.
    + destruct (random_rowid e) as [r|]; [|done].
      destruct ((1 <=? r) && (r <=? 2 ^ 62) && negb (existsb (has_id r) t))
        eqn:Hr; [|done].
      intros [= <-]. apply andb_prop in Hr as [Hr _].
      apply andb_prop in Hr as [Hr _]. apply Z.leb_le in Hr.
      split; [done|]. intros _ _ Hroom. specialize (Hroom x eq_refl). lia.
  - intros [= <-]. split; [lia|]. intros; lia.
Qed.

(** What a request does to the rows: whatever holds of all rows and of the
    row a valid create request describes holds of all rows afterwards. *)
Lemma handle_one_request_rows (P : message → Prop) e rq t r t' :
  Forall P t →
  (∀ i c ty, valid_create rq c ty → new_rowid e t = Ok i →
             P (Message i c ty (CURRENT_TIMESTAMP e))) →
  handle_one_request e rq t = (r, t') →
  Forall P t'.
Proof.
  intros Ht Hnew. unfold handle_one_request, do_GET, do_POST, do_DELETE, do_OPTIONS.
  repeat case_match; unfold_handler; try by intros [= _ <-].
  - intros Hrun. by apply handle_get_messages_table in Hrun as ->.
  - destruct (handle_create_message_outcome e rq t)
      as [(status & msg & -> & _)|(i & c & ty & Hvalid & Hid & ->)].
    + by intros [= _ <-].
    + simpl. intros [= _ <-]. rewrite btree_insert_perm. constructor; eauto.
  - destruct (py_int _); [|by intros [= _ <-]].
    rewrite handle_delete_message_run.
    repeat case_match; intros [= _ <-]; done || by apply Forall_delete.
Qed.

Lemma valid_create_row_valid rq c ty i now :
  valid_create rq c ty → row_valid (Message i c ty now).
Proof. intros [_ (d & _ & _ & Hc & _ & Hty)]. by split. Qed.

Lemma serve_ids_positive reqs t rs t' :
  Forall (fun x => 1 <= msg_id x) t → serve reqs t = (rs, t') →
  Forall (fun x => 1 <= msg_id x) t'.
Proof.
  revert t rs. induction reqs as [|[e rq] reqs IH]; intros t rs Ht; simpl.
  - by intros [= _ <-].
  - destruct (handle_one_request e rq t) as [r t1] eqn:H1.
    destruct (serve reqs t1) as [rs' t2] eqn:H2.
    intros [= _ <-]. eapply IH; [|done].
    eapply handle_one_request_rows; [exact Ht| |exact H1].
    intros i c ty _ Hnew. simpl.
    by destruct (new_rowid_bounds e t i 0 Ht Hnew).
Qed.

End Runs.

(** X14: Whatever requests are served, starting from a table in rowid order
    whose ids are positive, the stored ids stay pairwise distinct, positive
    and within 64 bits. *)
Theorem run_keeps_ids_distinct_and_positive
    (reqs : list (env * request)) (t : table)
    (rs : list (result response)) (t' : table) :
  table_ok t →
  Forall (fun x => 1 <= msg_id x) t →
  serve reqs t = (rs, t') →
  NoDup (msg_id <$> t') ∧ Forall (fun x => 1 <= msg_id x <= MAX_ROWID) t'.
Proof.
  intros Hok Hpos Hrun.
  destruct (serve_table_ok reqs t rs t' Hok Hrun) as [Hs Hr].
  pose proof (serve_ids_positive reqs t rs t' Hpos Hrun) as Hpos'.
  split; [by apply ascending_ids_NoDup|].
  rewrite Forall_forall in Hr, Hpos'. apply Forall_forall. intros x Hx.
  specialize (Hr x Hx). specialize (Hpos' x Hx). lia.
Qed.

Lemma run_keeps_ids_distinct_and_positive_witness :
  NoDup (msg_id <$> [Message 1 "a" "insight" 100; Message 3 "c" "insight" 100]) ∧
  Forall (fun x => 1 <= msg_id x <= MAX_ROWID)
    [Message 1 "a" "insight" 100; Message 3 "c" "insight" 100].
Proof.
  apply (run_keeps_ids_distinct_and_positive
           [ (sample_env, post_message "a" "insight");
             (sample_env, post_message "b" "insight");
             (sample_env, post_message "c" "insight");
             (sample_env, delete_request "/messages/2") ] []
           [ Ok (Json 201 (MessageObject (Message 1 "a" "insight" 100)));
             Ok (Json 201 (MessageObject (Message 2 "b" "insight" 100)));
             Ok (Json 201 (MessageObject (Message 3 "c" "insight" 100)));
             Ok (Json 200 (DeletedEnvelope 2)) ]).
  - exact table_ok_nil.
  - constructor.
  - reflexivity.
Defined.

(** X15: Whatever requests are served, starting from rows that a create request
    could have written, every stored row has one of the three types and a
    content that is not blank: nothing else is ever stored. *)
Theorem run_keeps_rows_valid
    (reqs : list (env * request)) (t : table)
    (rs : list (result response)) (t' : table) :
  Forall row_valid t →
  serve reqs t = (rs, t') →
  Forall row_valid t'.
Proof.
  revert t rs. induction reqs as [|[e rq] reqs IH]; intros t rs Ht; simpl.
  - by intros [= _ <-].
  - destruct (handle_one_request e rq t) as [r t1] eqn:H1.
    destruct (serve reqs t1) as [rs' t2] eqn:H2.
    intros [= _ <-]. eapply IH; [|done].
    eapply handle_one_request_rows; [exact Ht| |exact H1].
    intros i c ty Hvalid _. by eapply valid_create_row_valid.
Qed.

Lemma run_keeps_rows_valid_witness :
  Forall row_valid [Message 1 " a " "insight" 100].
Proof.
  apply (run_keeps_rows_valid
           [ (sample_env, post_message " a " "insight");
             (sample_env, post_message "   " "insight");
             (sample_env, post_message "b" "idea") ] []
           [ Ok (Json 201 (MessageObject (Message 1 " a " "insight" 100)));
             Ok (Json 400 (ErrorEnvelope (Text "'content' cannot be empty")));
             Ok (Json 400 (ErrorEnvelope
               (Text "'type' must be one of: insight, decision, observation"))) ]).
  - constructor.
  - reflexivity.
Defined.

Section NoDelete.

Implicit Types (e : env) (rq : request) (t : table) (m x : message).

(** A request that is no DELETE creates nothing and leaves the table, or
    appends a row with the next id. *)
Lemma handle_one_request_no_delete e rq t k r t' :
  table_ok t →
  Forall (fun x => 1 <= msg_id x <= k) t → 0 <= k < MAX_ROWID →
  command rq ≠ "DELETE" →
  handle_one_request e rq t = (r, t') →
  (created_id r = None ∧ t' = t) ∨
  (∃ m, created_id r = Some (msg_id m) ∧ t' = t ++ [m] ∧
        Forall (fun x => msg_id x < msg_id m) t ∧ 1 <= msg_id m <= k + 1).
Proof.
  intros Hok Hk Hkmax Hcmd.
  assert (has_room t) as Hroom.
  { intros x Hx. apply last_Some_elem_of in Hx.
    rewrite Forall_forall in Hk. specialize (Hk x Hx). lia. }
  unfold handle_one_request, do_GET, do_POST, do_OPTIONS.
  apply String.eqb_neq in Hcmd. rewrite Hcmd.
  repeat case_match; unfold_handler; try (intros [= <- <-]; by left).
  - rewrite handle_get_messages_run. repeat case_match; intros [= <- <-]; by left.
  - intros Hrun.
    destruct (handle_create_message_answer e rq t Hok)
      as [(m & Hans & Hnew & _)|(status & msg & Hans & _)];
      rewrite Hans in Hrun; injection Hrun as <- <-; [|by left].
    right. exists m.
    destruct (new_rowid_has_room e t Hok Hroom) as (i & Hnew' & Hlt).
    rewrite Hnew in Hnew'. injection Hnew' as <-.
    split; [done|]. split; [by apply btree_insert_snoc|]. split; [done|].
    assert (Forall (fun x => 1 <= msg_id x) t) as Hpos.
    { eapply Forall_impl; [exact Hk|]. simpl. intros; lia. }
    assert (Forall (fun x => msg_id x <= k) t) as Hle.
    { eapply Forall_impl; [exact Hk|]. simpl. intros; lia. }
    destruct (new_rowid_bounds e t (msg_id m) k Hpos Hnew) as [Hm1 Hmk].
    split; [done|]. apply Hmk; [done|lia|done].
Qed.

Lemma serve_no_delete_ids reqs : ∀ t k rs t',
  table_ok t →
  Forall (fun x => 1 <= msg_id x <= k) t → 0 <= k →
  k + Z.of_nat (length reqs) <= MAX_ROWID →
  Forall (fun p => command p.2 ≠ "DELETE") reqs →
  serve reqs t = (rs, t') →
  StronglySorted Z.lt (assigned_ids rs) ∧
  Forall (fun i => ∀ x, x ∈ t → msg_id x < i) (assigned_ids rs).
Proof.
  induction reqs as [|[e rq] reqs IH]; intros t k rs t' Hok Hk Hk0 Hlen Hcmd; simpl.
  - intros [= <- _]. split; constructor.
  - apply Forall_cons in Hcmd as [Hrq Hcmd]. simpl in Hrq.
    rewrite length_cons, Nat2Z.inj_succ in Hlen.
    destruct (handle_one_request e rq t) as [r t1] eqn:H1.
    destruct (serve reqs t1) as [rs' t2] eqn:H2.
    intros [= <- _]. unfold assigned_ids. simpl. fold (assigned_ids rs').
    destruct (handle_one_request_no_delete e rq t k r t1 Hok Hk ltac:(lia) Hrq H1)
      as [[-> ->]|(m & -> & -> & Hlt & Hm)].
    + eapply (IH t k); eauto. lia.
    + assert (table_ok (t ++ [m])) as Hok1.
      { eapply handle_one_request_table_ok; [exact Hok|exact H1]. }
      assert (Forall (fun x => 1 <= msg_id x <= k + 1) (t ++ [m])) as Hk1.
      { apply Forall_app. split; [|by apply Forall_singleton].
        eapply Forall_impl; [exact Hk|]. simpl. intros; lia. }
      destruct (IH (t ++ [m]) (k + 1) rs' t2 Hok1 Hk1 ltac:(lia) ltac:(lia) Hcmd H2)
        as [Hsorted Habove].
      rewrite Forall_forall in Hlt.
      split.
      * constructor; [done|].
        eapply Forall_impl; [exact Habove|]. simpl.
        intros i Hi. apply Hi. apply elem_of_app. right. left.
      * constructor.
        -- intros x Hx. by apply Hlt.
        -- eapply Forall_impl; [exact Habove|]. simpl.
           intros i Hi x Hx. apply Hi. apply elem_of_app. by left.
Qed.

End NoDelete.

(** X16: As long as no DELETE request is served, the ids given out grow: in a
    run from the empty table without DELETE requests, the assigned ids are
    strictly increasing. *)
Theorem ids_increase_without_delete (reqs : list (env * request)) :
  Forall (fun p => command p.2 ≠ "DELETE") reqs →
  Z.of_nat (length reqs) <= MAX_ROWID →
  StronglySorted Z.lt (assigned_ids (serve reqs []).1).
Proof.
  intros Hcmd Hlen.
  destruct (serve reqs []) as [rs t'] eqn:Hrun. simpl.
  assert (0 + Z.of_nat (length reqs) <= MAX_ROWID) as Hlen0 by lia.
  by destruct (serve_no_delete_ids reqs [] 0 rs t' table_ok_nil
                 (Forall_nil_2 _) (Z.le_refl 0) Hlen0 Hcmd Hrun).
Qed.

Lemma ids_increase_without_delete_witness :
  StronglySorted Z.lt
    (assigned_ids
       (serve [ (sample_env, post_message "a" "insight");
                (sample_env, list_request ∅);
                (sample_env, post_message "" "insight");
                (sample_env, post_message "b" "decision") ] []).1).
Proof.
  apply ids_increase_without_delete.
  - repeat constructor; discriminate.
  - unfold MAX_ROWID. simpl. lia.
Defined.

Section DigitPaths.

Implicit Types (c : ascii) (d s p : string).









End DigitPaths.






(** X19: No request modifies a stored row: every row of the table after a
    request was in the table before it, or is the row a create request
    returned with its 201. *)
Theorem stored_rows_never_modified
    (e : env) (rq : request) (t : table) (r : result response) (t' : table) :
  table_ok t →
  handle_one_request e rq t = (r, t') →
  ∀ x, x ∈ t' → x ∈ t ∨ r = Ok (Json 201 (MessageObject x)).
Proof.
  intros Hok. unfold handle_one_request, do_GET, do_POST, do_DELETE, do_OPTIONS.
  repeat case_match; unfold_handler; try (intros [= _ <-]; by left).
  - intros Hrun. apply handle_get_messages_table in Hrun as ->. by left.
  - destruct (handle_create_message_answer e rq t Hok)
      as [(m & -> & _)|(status & msg & -> & _)].
    + intros [= <- <-] x Hx. rewrite btree_insert_perm in Hx.
      apply elem_of_cons in Hx as [->|Hx]; [by right|by left].
    + intros [= _ <-]. by left.
  - destruct (py_int _); [|intros [= _ <-]; by left].
    rewrite handle_delete_message_run.
    repeat case_match; intros [= _ <-] x Hx; left; [|done..].
    by apply delete_elem_of in Hx as [? _].
  - intros [= _ <-] x Hx. by apply elem_of_nil in Hx.
Qed.

Lemma stored_rows_never_modified_witness :
  Message 1 "first" "insight" 100 ∈ same_second ∨
  Ok (Json 201 (MessageObject (Message 3 "c" "insight" 100)))
    = Ok (Json 201 (MessageObject (Message 1 "first" "insight" 100))).
Proof.
  apply (stored_rows_never_modified sample_env (post_message "c" "insight")
           same_second _ (same_second ++ [Message 3 "c" "insight" 100])).
  - exact table_ok_same_second.
  - reflexivity.
  - apply list_elem_of_In. simpl. tauto.
Defined.

(** X20: How a request changes the number of stored rows: one more with a
    created message, one less with a deleted one, none left after a clear,
    whose count is the number there was; any other answer, and no answer,
    leaves the table as it was. *)
Theorem row_count_accounting
    (e : env) (rq : request) (t : table) (r : result response) (t' : table) :
  table_ok t →
  handle_one_request e rq t = (r, t') →
  match r with
  | Ok (Json _ (MessageObject _)) => length t' = S (length t)
  | Ok (Json _ (DeletedEnvelope _)) => S (length t') = length t
  | Ok (Json _ (DeletedCountEnvelope n)) => t' = [] ∧ n = Z.of_nat (length t)
  | _ => t' = t
  end.
Proof.
  intros Hok. unfold handle_one_request, do_GET, do_POST, do_DELETE, do_OPTIONS.
  destruct (String.eqb (command rq) "GET").
  { destruct (String.eqb (path rq) "/messages").
    - rewrite handle_get_messages_run.
      destruct (effective_limit _) as [limit|]; [|by intros [= <- <-]].
      destruct (limit <=? MAX_ROWID); by intros [= <- <-].
    - destruct (_ || _); unfold_handler; by intros [= <- <-]. }
  destruct (String.eqb (command rq) "POST").
  { destruct (String.eqb (path rq) "/messages"); [|by intros [= <- <-]].
    destruct (handle_create_message_answer e rq t Hok)
      as [(m & -> & _)|(status & msg & -> & _)]; intros [= <- <-]; [|done].
    by rewrite btree_insert_perm. }
  destruct (String.eqb (command rq) "DELETE").
  { destruct (match_message_path _); unfold_handler.
    - destruct (py_int _) as [i|]; [|by intros [= <- <-]].
      rewrite handle_delete_message_run.
      destruct ((- MAX_ROWID - 1 <=? i) && (i <=? MAX_ROWID)); [|by intros [= <- <-]].
      destruct (sql_select_by_id i t) as [m|] eqn:Hsel; intros [= <- <-]; [|done].
      apply select_by_id_Some in Hsel as [Hm Hid]. destruct Hok as [Hs _].
      destruct (delete_present i t m Hs Hm Hid) as (t1 & t2 & -> & ->).
      rewrite !length_app. simpl. lia.
    - destruct (String.eqb _ _); by intros [= <- <-]. }
  destruct (String.eqb (command rq) "OPTIONS"); [by intros [= <- <-]|].
  destruct (String.eqb (command rq) "HEAD"); by intros [= <- <-].
Qed.

Lemma row_count_accounting_witness :
  S (length [Message 1 "first" "insight" 100]) = length same_second.
Proof.
  apply (row_count_accounting sample_env (delete_request "/messages/2")
           same_second (Ok (Json 200 (DeletedEnvelope 2)))
           [Message 1 "first" "insight" 100]).
  - exact table_ok_same_second.
  - reflexivity.
Defined.

(** X21: A body that is JSON but no object is never stored, and the answer
    depends on its shape: a number, [true], [false] or [null] gives a 500;
    an array without the element ["content"] gives the 400 of a missing
    content, and an array holding both ["content"] and ["type"] gives a
    500.  A body that is not UTF-8 gives a 500 as well. *)
Theorem create_non_object_body
    (e : env) (rq : request) (t : table) :
  has_body rq →
  (rfile rq = NotUtf8 →
   handle_create_message e rq t
     = (Ok (Json 500 (ErrorEnvelope (InternalServerError UnicodeDecodeError))), t)) ∧
  (∀ v, rfile rq = Loaded v → is_scalar v = true →
   handle_create_message e rq t
     = (Ok (Json 500 (ErrorEnvelope (InternalServerError TypeError))), t)) ∧
  (∀ l, rfile rq = Loaded (PList l) → PStr "content" ∉ l →
   handle_create_message e rq t
     = (Ok (Json 400 (ErrorEnvelope (Text "'content' field is required"))), t)) ∧
  (∀ l, rfile rq = Loaded (PList l) → PStr "content" ∈ l → PStr "type" ∈ l →
   handle_create_message e rq t
     = (Ok (Json 500 (ErrorEnvelope (InternalServerError TypeError))), t)).
Proof.
  intros (s & n & Hlen & Hint & Hn).
  assert (∀ k l, existsb (eq_str k) l = true ↔ PStr k ∈ l) as Hmem.
  { intros k l. rewrite existsb_exists. split.
    - intros (v & Hv & Heq). destruct v; try done. simpl in Heq.
      apply String.eqb_eq in Heq as ->. by apply list_elem_of_In.
    - intros Hin. exists (PStr k). split; [by apply list_elem_of_In|].
      simpl. apply String.eqb_refl. }
  unfold handle_create_message. unfold_handler. rewrite Hlen, Hint.
  destruct (Z.eqb_spec n 0) as [|_]; [done|].
  split; [|split; [|split]].
  - by intros ->.
  - intros v -> Hv. by destruct v.
  - intros l -> Hc. cbn [json_loads py_contains].
    destruct (existsb (eq_str "content") l) eqn:Hex; [|done].
    by apply Hmem in Hex.
  - intros l -> Hc Hty. cbn [json_loads py_contains py_getitem].
    apply Hmem in Hc, Hty. by rewrite Hc, Hty.
Qed.

Lemma create_non_object_body_witness :
  handle_create_message sample_env
    (Request "POST" "/messages" ∅ (Some "4") (Loaded PNone)) same_second
  = (Ok (Json 500 (ErrorEnvelope (InternalServerError TypeError))), same_second) ∧
  handle_create_message sample_env
    (Request "POST" "/messages" ∅ (Some "4") (Loaded (PList [PStr "type"])))
    same_second
  = (Ok (Json 400 (ErrorEnvelope (Text "'content' field is required"))), same_second).
Proof.
  assert (∀ b, has_body (Request "POST" "/messages" ∅ (Some "4") b)) as Hb.
  { intros b. exists "4", 4. split; [reflexivity|]. split; [reflexivity|lia]. }
  split.
  - apply (proj1 (proj2 (create_non_object_body sample_env _ same_second (Hb _)))
             PNone); reflexivity.
  - apply (proj1 (proj2 (proj2 (create_non_object_body sample_env _ same_second
                                  (Hb _)))) [PStr "type"]); [reflexivity|].
    intros H. apply list_elem_of_singleton in H. discriminate H.
Defined.

(** X22: Deleting a stored row by its id takes that row out of the table and no
    other, answers 200 with the id, and makes the same request answer 404
    from then on. *)
Theorem delete_stored_row (t : table) (m : message) :
  table_ok t →
  m ∈ t →
  ∃ t1 t2,
    t = t1 ++ m :: t2 ∧
    handle_delete_message (msg_id m) t
      = (Ok (Json 200 (DeletedEnvelope (msg_id m))), t1 ++ t2) ∧
    handle_delete_message (msg_id m) (t1 ++ t2)
      = (Ok (Json 404 (ErrorEnvelope (Text "Message not found"))), t1 ++ t2).
Proof.
  intros Hok Hm.
  assert (- MAX_ROWID - 1 <= msg_id m <= MAX_ROWID) as Hrange.
  { destruct Hok as [_ Hr]. rewrite Forall_forall in Hr. by apply Hr. }
  destruct (handle_delete_message_in_range (msg_id m) t Hok Hrange) as [Hpresent _].
  destruct (Hpresent m Hm eq_refl) as (t1 & t2 & Ht & Hdel & _ & Hagain).
  by exists t1, t2.
Qed.

Lemma delete_stored_row_witness :
  ∃ t1 t2,
    same_second = t1 ++ Message 1 "first" "insight" 100 :: t2 ∧
    handle_delete_message 1 same_second
      = (Ok (Json 200 (DeletedEnvelope 1)), t1 ++ t2) ∧
    handle_delete_message 1 (t1 ++ t2)
      = (Ok (Json 404 (ErrorEnvelope (Text "Message not found"))), t1 ++ t2).
Proof.
  apply (delete_stored_row same_second (Message 1 "first" "insight" 100)).
  - exact table_ok_same_second.
  - apply list_elem_of_In. simpl. tauto.
Defined.

(** X23: Deleting by an id that no row has, and that SQLite can bind, answers
    404 [Message not found] and leaves the table as it was. *)
Theorem delete_absent_id_not_found (i : Z) (t : table) :
  - MAX_ROWID - 1 <= i <= MAX_ROWID →
  (∀ x, x ∈ t → msg_id x ≠ i) →
  handle_delete_message i t
    = (Ok (Json 404 (ErrorEnvelope (Text "Message not found"))), t).
Proof.
  intros Hi Habsent. rewrite handle_delete_message_run.
  assert ((- MAX_ROWID - 1 <=? i) && (i <=? MAX_ROWID) = true) as ->.
  { apply andb_true_intro. split; apply Z.leb_le; lia. }
  apply Forall_forall, select_by_id_None in Habsent. by rewrite Habsent.
Qed.

Lemma delete_absent_id_not_found_witness :
  handle_delete_message 999999 same_second
  = (Ok (Json 404 (ErrorEnvelope (Text "Message not found"))), same_second).
Proof.
  apply (delete_absent_id_not_found 999999 same_second).
  - unfold MAX_ROWID. lia.
  - intros x Hx. apply list_elem_of_In in Hx. simpl in Hx.
    destruct Hx as [<-|[<-|[]]]; simpl; lia.
Defined.
